(** * WhatsappScamDetect: the scam detector of [ml_system/scam_detector.py]

  A shallow embedding of class [ScamDetector]: text normalisation,
  URL extraction, URL risk scoring, the fusion of the classifier's
  probability with the URL risk in [predict], and the load/save boundary.

  Modelling conventions.
  - A Python [str] is a [string]; a character is an [ascii].  The character
    classes of [re] and of [str.lower] / [str.strip] are the ones CPython
    uses on code points below 128; statements that depend on them are made
    for 7-bit text.
  - A Python [float] is an exact rational ([Q]); an [int] is a [Z].
  - scikit-learn (vectorizer and classifier) is an interface, [Sklearn].
  - [raise] is the left injection of a sum type. *)

From Stdlib Require Import ZArith QArith Qround Ascii String List Bool Lia Lqa.
From stdpp Require Import base decidable option list sets gmap strings pretty.

Local Open Scope string_scope.
Local Open Scope Z_scope.
Local Open Scope list_scope.

(** ** Characters *)

Module Chars.

Definition code (c : ascii) : nat := nat_of_ascii c.

Definition in_range (lo hi c : ascii) : bool :=
  (code lo <=? code c)%nat && (code c <=? code hi)%nat.

Definition is_upper (c : ascii) : bool := in_range "A" "Z" c.
Definition is_lower (c : ascii) : bool := in_range "a" "z" c.
Definition is_digit (c : ascii) : bool := in_range "0" "9" c.
Definition is_alpha (c : ascii) : bool := is_upper c || is_lower c.
Definition is_alnum (c : ascii) : bool := is_alpha c || is_digit c.

(** [\w] on 7-bit text: [[a-zA-Z0-9_]]. *)
Definition is_word (c : ascii) : bool := is_alnum c || Ascii.eqb c "_".

(** [\s] and [str.isspace] on 7-bit text: tab, line feed, vertical tab,
    form feed, carriage return, the separators 28..31 and the space. *)
Definition is_space (c : ascii) : bool :=
  let n := code c in
  ((9 <=? n)%nat && (n <=? 13)%nat) || ((28 <=? n)%nat && (n <=? 32)%nat).

Definition is_hex (c : ascii) : bool :=
  is_digit c || in_range "a" "f" c || in_range "A" "F" c.

Definition is_7bit (c : ascii) : bool := (code c <? 128)%nat.

(** [str.lower] on one 7-bit character. *)
Definition lower (c : ascii) : ascii :=
  if is_upper c then ascii_of_nat (code c + 32) else c.

End Chars.

(** ** Strings: the [str] methods the detector calls *)

Module Str.

Fixpoint map (f : ascii -> ascii) (s : string) : string :=
  match s with
  | EmptyString => EmptyString
  | String c s' => String (f c) (map f s')
  end.

Fixpoint forallb (p : ascii -> bool) (s : string) : bool :=
  match s with
  | EmptyString => true
  | String c s' => p c && forallb p s'
  end.

(** [s.lower()] *)
Definition lower (s : string) : string := map Chars.lower s.

(** [s.startswith(p)] *)
Fixpoint startswith (p s : string) : bool :=
  match p, s with
  | EmptyString, _ => true
  | String _ _, EmptyString => false
  | String a p', String b s' => Ascii.eqb a b && startswith p' s'
  end.

(** [needle in s] *)
Fixpoint contains (needle s : string) : bool :=
  startswith needle s ||
  match s with
  | EmptyString => false
  | String _ s' => contains needle s'
  end.

Fixpoint drop (n : nat) (s : string) : string :=
  match n, s with
  | O, _ => s
  | S _, EmptyString => EmptyString
  | S n', String _ s' => drop n' s'
  end.

Fixpoint take (n : nat) (s : string) : string :=
  match n, s with
  | O, _ => EmptyString
  | S _, EmptyString => EmptyString
  | S n', String c s' => String c (take n' s')
  end.

(** [s.count(needle)] for a non-empty needle: occurrences are counted
    left to right without overlap.  [skip] is the number of characters
    still covered by the occurrence found last. *)
Fixpoint count_from (needle s : string) (skip : nat) : Z :=
  match s with
  | EmptyString => 0
  | String _ s' =>
      match skip with
      | S k => count_from needle s' k
      | O =>
          if startswith needle s
          then 1 + count_from needle s' (String.length needle - 1)
          else count_from needle s' 0
      end
  end.

Definition count (needle s : string) : Z := count_from needle s 0.

(** [len(s)] *)
Definition len (s : string) : Z := Z.of_nat (String.length s).

Fixpoint lstrip (s : string) : string :=
  match s with
  | EmptyString => EmptyString
  | String c s' => if Chars.is_space c then lstrip s' else s
  end.

Fixpoint rstrip (s : string) : string :=
  match s with
  | EmptyString => EmptyString
  | String c s' =>
      match rstrip s' with
      | EmptyString => if Chars.is_space c then EmptyString else String c EmptyString
      | r => String c r
      end
  end.

(** [s.strip()] *)
Definition strip (s : string) : string := rstrip (lstrip s).

Fixpoint endswith_char (p : ascii -> bool) (s : string) : bool :=
  match s with
  | EmptyString => false
  | String c EmptyString => p c
  | String _ s' => endswith_char p s'
  end.

Definition startswith_char (p : ascii -> bool) (s : string) : bool :=
  match s with
  | EmptyString => false
  | String c _ => p c
  end.

End Str.

(** ** Regular expressions: the fragment of [re] the detector uses

  A backtracking matcher with the priorities of CPython's engine: the
  alternatives of [|] are tried left to right, and the quantifiers are
  greedy.  The matcher is written in continuation-passing style; the
  continuation receives the rest of the subject and answers with the rest
  left by the whole match. *)

Module Re.

Inductive regex : Type :=
| Eps
| Cls (p : ascii -> bool)
| Seq (a b : regex)
| Alt (a b : regex)
| Star (a : regex).

Definition cont := string -> option string.

Section Loop.
Variable body : cont -> cont.
Variable k : cont.

(** The greedy loop of [a*]: one more iteration first, the continuation
    otherwise.  An iteration has to consume something; [fuel] exceeds
    the length of the subject, so it never runs out (see
    [loop_fuel]). *)
Fixpoint loop (fuel : nat) (s : string) : option string :=
  match fuel with
  | O => k s
  | S fuel' =>
      match body (fun s' =>
                    if (String.length s' <? String.length s)%nat
                    then loop fuel' s' else None) s with
      | Some r => Some r
      | None => k s
      end
  end.
End Loop.

Fixpoint run (r : regex) (k : cont) (s : string) : option string :=
  match r with
  | Eps => k s
  | Cls p =>
      match s with
      | String c s' => if p c then k s' else None
      | EmptyString => None
      end
  | Seq a b => run a (run b k) s
  | Alt a b =>
      match run a k s with
      | Some r => Some r
      | None => run b k s
      end
  | Star a => loop (run a) k (S (String.length s)) s
  end.

(** Derived forms. *)
Definition Chr (c : ascii) : regex := Cls (Ascii.eqb c).
Definition Plus (a : regex) : regex := Seq a (Star a).
Definition Opt (a : regex) : regex := Alt a Eps.

Fixpoint Lit (s : string) : regex :=
  match s with
  | EmptyString => Eps
  | String c s' => Seq (Chr c) (Lit s')
  end.

(** [a|b|...], a non-empty list of alternatives in order. *)
Fixpoint Alts (a : regex) (rest : list regex) : regex :=
  match rest with
  | [] => a
  | b :: rest' => Alt a (Alts b rest')
  end.

(** [a{1,3}] *)
Definition Rep13 (a : regex) : regex := Seq a (Opt (Seq a (Opt a))).

(** [match_at r s]: the match of [r] anchored at the start of [s], as the
    matched text and the rest. *)
Definition match_at (r : regex) (s : string) : option (string * string) :=
  match run r Some s with
  | Some rest =>
      Some (Str.take (String.length s - String.length rest) s, rest)
  | None => None
  end.

(** [re.search(r, s) is not None] *)
Fixpoint search (r : regex) (s : string) : bool :=
  match match_at r s with
  | Some _ => true
  | None =>
      match s with
      | EmptyString => false
      | String _ s' => search r s'
      end
  end.

(** [re.findall(r, s)] for a pattern without capture groups whose matches
    are never empty: the matches from left to right, without overlap. *)
Fixpoint findall_from (r : regex) (s : string) (skip : nat) : list string :=
  match s with
  | EmptyString => []
  | String _ s' =>
      match skip with
      | S n => findall_from r s' n
      | O =>
          match match_at r s with
          | Some (m, _) => m :: findall_from r s' (String.length m - 1)
          | None => findall_from r s' 0
          end
      end
  end.

Definition findall (r : regex) (s : string) : list string :=
  findall_from r s 0.

(** [re.sub(r, repl, s)] for such a pattern. *)
Fixpoint sub_from (r : regex) (repl s : string) (skip : nat) : string :=
  match s with
  | EmptyString => EmptyString
  | String c s' =>
      match skip with
      | S n => sub_from r repl s' n
      | O =>
          match match_at r s with
          | Some (m, _) => repl ++ sub_from r repl s' (String.length m - 1)
          | None => String c (sub_from r repl s' 0)
          end
      end
  end.

Definition sub (r : regex) (repl s : string) : string :=
  sub_from r repl s 0.

End Re.

(** ** Python values that the detector returns or raises *)

(** The exceptions of the detector; [SklearnError] stands for anything that
    scikit-learn raises (for instance on a vectorizer that was never fitted). *)
Inductive exn : Type :=
| ValueError (msg : string)
| FileNotFoundError (msg : string)
| SklearnError (msg : string).

Definition result (A : Type) : Type := exn + A.

(** A call into scikit-learn: the message of what it raises, or a value. *)
Definition sklearn_result (A : Type) : Type := string + A.

Definition sklearn_call {A : Type} (r : sklearn_result A) : result A :=
  match r with
  | inl msg => inl (SklearnError msg)
  | inr a => inr a
  end.

Definition ret {A : Type} (a : A) : result A := inr a.
Definition raise {A : Type} (e : exn) : result A := inl e.

Definition bind {A B : Type} (m : result A) (f : A -> result B) : result B :=
  match m with
  | inl e => inl e
  | inr a => f a
  end.

Notation "'do' x <- m ; f" := (bind m (fun x => f))
  (at level 10, x name, m at level 100, f at level 200).

(** The order in which CPython iterates over a [set] of strings is not
    specified (it depends on the hashes); [list(set(l))] is some arrangement
    of the distinct elements of [l]. *)
Class SetOrder : Type := {
  set_to_list : gset string -> list string;
  set_to_list_perm : forall X : gset string, set_to_list X ≡ₚ elements X
}.

(** scikit-learn as the detector uses it at inference time, on a batch of
    one message: [vectorizer.transform([text])], [classifier.predict(X)[0]]
    and [classifier.predict_proba(X)[0]], the latter as the pair of the
    probabilities of class 0 (safe) and class 1 (scam). *)
Class Sklearn : Type := {
  Vectorizer : Type;
  Classifier : Type;
  Features : Type;
  vec_transform : Vectorizer -> string -> sklearn_result Features;
  clf_predict : Classifier -> Features -> sklearn_result Z;
  clf_predict_proba : Classifier -> Features -> sklearn_result (Q * Q);
  (** [TfidfVectorizer(...)] and [RandomForestClassifier(...)], not fitted *)
  new_vectorizer : Vectorizer;
  new_classifier : Classifier
}.

(** ** The detector *)

Module ScamDetector.

(** *** [preprocess_text] *)

(** [[^\w\s]] *)
Definition not_word_not_space : Re.regex :=
  Re.Cls (fun c => negb (Chars.is_word c || Chars.is_space c)).

(** [\s+] *)
Definition spaces : Re.regex := Re.Plus (Re.Cls Chars.is_space).

Definition preprocess_text (text : string) : string :=
  let text := Str.lower text in
  let text := Re.sub not_word_not_space " " text in
  let text := Str.strip (Re.sub spaces " " text) in
  text.

(** *** [extract_urls] *)

(** [[$-_@.&+]]: the range from [$] to [_], and four more characters. *)
Definition url_punct (c : ascii) : bool :=
  Chars.in_range "$" "_" c ||
  Ascii.eqb c "@" || Ascii.eqb c "." || Ascii.eqb c "&" || Ascii.eqb c "+".

(** [[!*\\(\\),]]: in a raw string the class holds a backslash (twice). *)
Definition url_extra (c : ascii) : bool :=
  Ascii.eqb c "!" || Ascii.eqb c "*" || Ascii.eqb c "\" ||
  Ascii.eqb c "(" || Ascii.eqb c ")" || Ascii.eqb c ",".

(** [http[s]?://(?:[a-zA-Z]|[0-9]|[$-_@.&+]|[!*\\(\\),]|(?:%[0-9a-fA-F][0-9a-fA-F]))+] *)
Definition url_pattern : Re.regex :=
  Re.Seq (Re.Lit "http")
    (Re.Seq (Re.Opt (Re.Chr "s"))
       (Re.Seq (Re.Lit "://")
          (Re.Plus
             (Re.Alts (Re.Cls Chars.is_alpha)
                [Re.Cls Chars.is_digit;
                 Re.Cls url_punct;
                 Re.Cls url_extra;
                 Re.Seq (Re.Chr "%")
                   (Re.Seq (Re.Cls Chars.is_hex) (Re.Cls Chars.is_hex))])))).

Definition tlds : list string :=
  ["com"; "org"; "net"; "in"; "co"; "io"; "ai"; "app"; "xyz"; "info"; "biz";
   "tk"; "ml"; "ga"; "cf"; "gq"].

(** [(?:www\.|[a-zA-Z0-9-]+\.(?:com|org|...|gq))[^\s]*] *)
Definition url_pattern_simple : Re.regex :=
  Re.Seq
    (Re.Alt (Re.Lit "www.")
       (Re.Seq (Re.Plus (Re.Cls (fun c => Chars.is_alnum c || Ascii.eqb c "-")))
          (Re.Seq (Re.Chr ".")
             (Re.Alts (Re.Lit "com") (List.map Re.Lit (List.tl tlds))))))
    (Re.Star (Re.Cls (fun c => negb (Chars.is_space c)))).

(** [(?:bit\.ly|tinyurl\.com|goo\.gl|ow\.ly|t\.co|cutt\.ly)/[a-zA-Z0-9]+] *)
Definition shortened_pattern : Re.regex :=
  Re.Seq
    (Re.Alts (Re.Lit "bit.ly")
       [Re.Lit "tinyurl.com"; Re.Lit "goo.gl"; Re.Lit "ow.ly"; Re.Lit "t.co";
        Re.Lit "cutt.ly"])
    (Re.Seq (Re.Chr "/") (Re.Plus (Re.Cls Chars.is_alnum))).

(** The list [urls] before [list(set(urls))]. *)
Definition url_matches (text : string) : list string :=
  let urls := Re.findall url_pattern text in
  let urls := urls ++ Re.findall url_pattern_simple text in
  let urls := urls ++ Re.findall shortened_pattern text in
  urls.

Definition extract_urls `{SetOrder} (text : string) : list string :=
  set_to_list (list_to_set (url_matches text)).

(** *** [analyze_url] *)

Record UrlAnalysis : Type := {
  url : string;
  suspicion_score : Z;
  is_suspicious : bool;
  reasons : list string
}.

Definition phishing_keywords : list string :=
  ["verify"; "login"; "account"; "secure"; "update"; "confirm";
   "bank"; "paypal"; "amazon"; "suspended"; "urgent"; "click";
   "prize"; "winner"; "free"; "claim"; "limited"; "offer"].

Definition shorteners : list string :=
  ["bit.ly"; "tinyurl"; "goo.gl"; "t.co"; "cutt.ly"].

Definition suspicious_tlds : list string :=
  [".tk"; ".ml"; ".ga"; ".cf"; ".gq"; ".xyz"; ".top"].

(** [\d{1,3}\.\d{1,3}\.\d{1,3}\.\d{1,3}] *)
Definition ip_pattern : Re.regex :=
  let d := Re.Rep13 (Re.Cls Chars.is_digit) in
  let dot := Re.Chr "." in
  Re.Seq d (Re.Seq dot (Re.Seq d (Re.Seq dot (Re.Seq d (Re.Seq dot d))))).

(** The two local variables that the rules update: [suspicion_score] and
    [reasons]. *)
Definition scoring : Type := Z * list string.

(** [if cond: suspicion_score += delta; reasons.append(reason)] *)
Definition rule (cond : bool) (delta : Z) (reason : string) (st : scoring) : scoring :=
  if cond then (fst st + delta, snd st ++ [reason]) else st.

(** The [for keyword in phishing_keywords] loop. *)
Definition keyword_rules (url_lower : string) (st : scoring) : scoring :=
  fold_left
    (fun st keyword =>
       rule (Str.contains keyword url_lower) 15 ("Contains keyword: " +:+ keyword) st)
    phishing_keywords st.

(** The score and the reasons before [min(suspicion_score, 100)]. *)
Definition apply_rules (url : string) : scoring :=
  let st : scoring := (0, []) in
  let url_lower := Str.lower url in
  let st := keyword_rules url_lower st in
  let st := rule (existsb (fun shortener => Str.contains shortener url_lower) shorteners)
              20 "Shortened URL" st in
  let st := rule (Str.contains "@" url) 25 "Contains @ symbol" st in
  let st := rule (1 <? Str.count "//" url) 20 "Multiple slashes" st in
  let st := rule (existsb (fun tld => Str.contains tld url_lower) suspicious_tlds)
              15 "Suspicious TLD" st in
  let st := rule (Re.search ip_pattern url) 20 "IP address in URL" st in
  let st := rule (100 <? Str.len url) 10 "Unusually long URL" st in
  let st := rule (3 <? Str.count "-" url_lower) 10 "Multiple hyphens" st in
  st.

Definition analyze_url (url : string) : UrlAnalysis :=
  let '(suspicion_score, reasons) := apply_rules url in
  let suspicion_score := Z.min suspicion_score 100 in
  {| url := url;
     suspicion_score := suspicion_score;
     is_suspicious := 40 <=? suspicion_score;
     reasons := reasons |}.

(** *** The detector object *)

Record detector `{Sklearn} : Type := {
  model_dir : string;
  vectorizer : Vectorizer;
  classifier : Classifier;
  is_trained : bool
}.

(** [__init__] (the directory it creates is left out). *)
Definition init `{Sklearn} (model_dir : string) : detector :=
  {| model_dir := model_dir;
     vectorizer := new_vectorizer;
     classifier := new_classifier;
     is_trained := false |}.

(** *** [predict] *)

Record DetectionResult : Type := {
  text : string;
  is_scam : bool;
  confidence : Q;
  text_scam_probability : Q;
  text_safe_probability : Q;
  urls_found : Z;
  url_analyses : list UrlAnalysis;
  has_suspicious_urls : bool;
  max_url_suspicion_score : Z;
  result_reasons : list string;
  verdict : string
}.

(** [max(l, default=d)] *)
Definition max_default (l : list Z) (d : Z) : Z :=
  match l with
  | [] => d
  | x :: l' => fold_left Z.max l' x
  end.

(** [max(a, b)] on two floats: [b] when [b > a], else [a]. *)
Definition max2 (a b : Q) : Q := if Qle_bool b a then a else b.

(** [round(q)] to the nearest integer, ties to the even one. *)
Definition round_half_even (q : Q) : Z :=
  let f := Qfloor q in
  match ((q - inject_Z f) ?= (1 # 2))%Q with
  | Lt => f
  | Gt => f + 1
  | Eq => if Z.even f then f else f + 1
  end.

Definition two_digits (n : Z) : string :=
  pretty (n / 10) +:+ pretty (n mod 10).

(** [f"{p:.2%}"] *)
Definition format_percent (p : Q) : string :=
  let n := round_half_even (p * 10000) in
  let a := Z.abs n in
  (if n <? 0 then "-" else "") +:+ pretty (a / 100) +:+ "." +:+ two_digits (a mod 100) +:+ "%".

Definition not_trained_message : string :=
  "Model not trained. Call train() first or load a trained model.".

(** [combined_score = (text_scam_prob * 0.6) + (url_risk_factor * 0.4)] with
    [url_risk_factor = max_url_score / 100.0]. *)
Definition combined_score (text_scam_prob : Q) (max_url_score : Z) : Q :=
  let url_risk_factor := (inject_Z max_url_score / 100)%Q in
  ((text_scam_prob * 0.6) + (url_risk_factor * 0.4))%Q.

(** [1 if combined_score >= 0.5 else 0] *)
Definition preliminary_prediction (combined : Q) : Z :=
  if Qle_bool 0.5 combined then 1 else 0.

(** The override: the pair of [final_prediction] and [combined_score] after
    [if has_suspicious_urls and final_prediction == 0: ...]. *)
Definition override (has_suspicious_urls : bool) (final_prediction : Z) (combined : Q)
  : Z * Q :=
  if has_suspicious_urls && (final_prediction =? 0)
  then (1, max2 combined 0.6)
  else (final_prediction, combined).

Definition build_reasons (text_scam_prob : Q) (has_suspicious_urls : bool)
    (final_prediction : Z) : list string :=
  let reasons := [] in
  let reasons :=
    if negb (Qle_bool text_scam_prob 0.6)
    then reasons ++ ["High scam probability in text (" +:+ format_percent text_scam_prob +:+ ")"]
    else reasons in
  let reasons :=
    if has_suspicious_urls then reasons ++ ["Contains suspicious URLs"] else reasons in
  let reasons :=
    if final_prediction =? 0 then reasons ++ ["Message appears safe"] else reasons in
  reasons.

(** The body of [predict] after the calls into scikit-learn (from
    [urls = self.extract_urls(text)] to the [return]); [probability] is
    [classifier.predict_proba(X)[0]]. *)
Definition fuse `{SetOrder} (text : string) (probability : Q * Q) : DetectionResult :=
  let urls := extract_urls text in
  let url_analyses := List.map analyze_url urls in
  let max_url_score := max_default (List.map suspicion_score url_analyses) 0 in
  let has_suspicious_urls := existsb is_suspicious url_analyses in
  let text_scam_prob := snd probability in
  let combined := combined_score text_scam_prob max_url_score in
  let final_prediction := preliminary_prediction combined in
  let '(final_prediction, combined) :=
    override has_suspicious_urls final_prediction combined in
  let reasons := build_reasons text_scam_prob has_suspicious_urls final_prediction in
  {| text := text;
     is_scam := negb (final_prediction =? 0);
     confidence := combined;
     text_scam_probability := text_scam_prob;
     text_safe_probability := fst probability;
     urls_found := Z.of_nat (length urls);
     url_analyses := url_analyses;
     has_suspicious_urls := has_suspicious_urls;
     max_url_suspicion_score := max_url_score;
     result_reasons := reasons;
     verdict := if final_prediction =? 1 then "SCAM" else "SAFE" |}.

Definition predict `{Sklearn} `{SetOrder} (self : detector) (text : string)
  : result DetectionResult :=
  if negb (is_trained self) then raise (ValueError not_trained_message)
  else
    let processed_text := preprocess_text text in
    do X <- sklearn_call (vec_transform (vectorizer self) processed_text);
    do prediction <- sklearn_call (clf_predict (classifier self) X);
    do probability <- sklearn_call (clf_predict_proba (classifier self) X);
    ret (fuse text probability).

(** *** [save_model] and [load_model] *)

(** The files the detector reads and writes: for each path, the object that
    was pickled into it. *)
Record files `{Sklearn} : Type := {
  vectorizers : gmap string Vectorizer;
  classifiers : gmap string Classifier
}.

Definition path_join (dir name : string) : string := dir +:+ "/" +:+ name.

Definition save_model `{Sklearn} (self : detector) (fs : files) : result files :=
  let vectorizer_path := path_join (model_dir self) "vectorizer.pkl" in
  let classifier_path := path_join (model_dir self) "classifier.pkl" in
  let fs := {| vectorizers := <[vectorizer_path := vectorizer self]> (vectorizers fs);
               classifiers := classifiers fs |} in
  let fs := {| vectorizers := vectorizers fs;
               classifiers := <[classifier_path := classifier self]> (classifiers fs) |} in
  ret fs.

Definition load_model `{Sklearn} (self : detector) (fs : files) : result detector :=
  let vectorizer_path := path_join (model_dir self) "vectorizer.pkl" in
  let classifier_path := path_join (model_dir self) "classifier.pkl" in
  match vectorizers fs !! vectorizer_path, classifiers fs !! classifier_path with
  | Some v, Some c =>
      ret {| model_dir := model_dir self;
             vectorizer := v;
             classifier := c;
             is_trained := true |}
  | _, _ => raise (FileNotFoundError ("Model files not found in " +:+ model_dir self))
  end.

End ScamDetector.

(** ** Concrete instances, for examples *)

(** One admissible iteration order of sets: stdpp's [elements]. *)
Definition canonical_order : SetOrder :=
  {| set_to_list := elements; set_to_list_perm := fun X => reflexivity _ |}.

(** A stand-in for a fitted scikit-learn pair: the classifier is the scam
    probability it answers for every message. *)
Definition stub_model : Sklearn :=
  {| Vectorizer := unit; Classifier := Q; Features := string;
     vec_transform := fun _ s => inr s;
     clf_predict := fun p _ => inr (if Qle_bool 0.5 p then 1 else 0);
     clf_predict_proba := fun p _ => inr ((1 - p)%Q, p);
     new_vectorizer := tt; new_classifier := 0%Q |}.

Definition stub_detector (p : Q) : @ScamDetector.detector stub_model :=
  @ScamDetector.Build_detector stub_model "./models" tt p true.

Definition stub_predict (p : Q) (text : string) : result ScamDetector.DetectionResult :=
  @ScamDetector.predict stub_model canonical_order (stub_detector p) text.

Definition no_files : @ScamDetector.files stub_model :=
  @ScamDetector.Build_files stub_model ∅ ∅.

(** ** Vocabulary of the statements *)

Section Vocabulary.
Import ScamDetector.

(** What every rule keeps: the score is not negative, and it is zero exactly
    when no reason has been recorded. *)
Definition scoring_inv (st : scoring) : Prop :=
  0 <= fst st /\ (snd st = [] <-> fst st = 0).

Definition suspicious_message : string := "Click http://secure-bank-verify.tk/login".

(** What [predict] returns for [suspicious_message] when the classifier
    answers 0.4. *)
Definition suspicious_result : DetectionResult :=
  @fuse canonical_order suspicious_message (0.6, 0.4)%Q.

Definition safe_reason : string := "Message appears safe".

Definition urls_reason : string := "Contains suspicious URLs".

Definition text_reason (p : Q) : string :=
  "High scam probability in text (" +:+ format_percent p +:+ ")".

Definition calm_message : string := "Hi there".

Definition calm_result : DetectionResult :=
  @fuse canonical_order calm_message (0.3, 0.7)%Q.

(** The combined score in the words of the specification:
    [0.6 * p_scam + 0.4 * (max_url_score / 100)]. *)
Definition spec_combined (p_scam : Q) (max_url_score : Z) : Q :=
  (0.6 * p_scam + 0.4 * (inject_Z max_url_score / 100))%Q.

(** [m] is the maximum of [scores], and 0 when there is none. *)
Definition spec_max_score (m : Z) (scores : list Z) : Prop :=
  (scores = [] /\ m = 0) \/ (In m scores /\ forall x, In x scores -> x <= m).

(** The confidence after the override, for a fixed URL risk. *)
Definition final_confidence (h : bool) (m : Z) (p : Q) : Q :=
  let c := combined_score p m in
  snd (override h (preliminary_prediction c) c).

Definition models_dir : string := "./models".

(** What [re.sub(r'[^\w\s]', ' ', text)] does to one character. *)
Definition blank_punct (c : ascii) : ascii :=
  if negb (Chars.is_word c || Chars.is_space c) then " "%char else c.

(** What [re.sub(r'\s+', ' ', text)] does: of a run of white space, only the
    last character stays, as a space. *)
Fixpoint collapse (s : string) : string :=
  match s with
  | EmptyString => EmptyString
  | String c s' =>
      if Chars.is_space c
      then if Str.startswith_char Chars.is_space s'
           then collapse s'
           else String " " (collapse s')
      else String c (collapse s')
  end.

(** The characters the specification names: lowercase letters, digits and
    the space. *)
Definition spec_char (c : ascii) : bool :=
  Chars.is_lower c || Chars.is_digit c || Ascii.eqb c " ".

(** The characters that do occur: those, and the underscore. *)
Definition normal_char (c : ascii) : bool := spec_char c || Ascii.eqb c "_".

End Vocabulary.

(** ** The language of a regular expression *)

Section Language.

(** [matches r w]: the word [w] belongs to the language of [r]. *)
Inductive matches : Re.regex -> string -> Prop :=
| matches_eps : matches Re.Eps EmptyString
| matches_cls p c : p c = true -> matches (Re.Cls p) (String c EmptyString)
| matches_seq a b w1 w2 :
    matches a w1 -> matches b w2 -> matches (Re.Seq a b) (w1 +:+ w2)
| matches_alt_l a b w : matches a w -> matches (Re.Alt a b) w
| matches_alt_r a b w : matches b w -> matches (Re.Alt a b) w
| matches_star_nil a : matches (Re.Star a) EmptyString
| matches_star_cons a w1 w2 :
    matches a w1 -> matches (Re.Star a) w2 -> matches (Re.Star a) (w1 +:+ w2).

(** [m] occurs in [s]. *)
Definition substring (m s : string) : Prop :=
  exists pre post, s = pre +:+ m +:+ post.

(** The 256 characters. *)
Definition all_ascii : list ascii := List.map ascii_of_nat (seq 0 256).

(** Every character that some class of [r] accepts satisfies [q]. *)
Fixpoint classes_within (q : ascii -> bool) (r : Re.regex) : bool :=
  match r with
  | Re.Eps => true
  | Re.Cls p => List.forallb (fun c => implb (p c) (q c)) all_ascii
  | Re.Seq a b | Re.Alt a b => classes_within q a && classes_within q b
  | Re.Star a => classes_within q a
  end.

(** A lower bound on the length of the words of [r]. *)
Fixpoint min_len (r : Re.regex) : nat :=
  match r with
  | Re.Eps => 0
  | Re.Cls _ => 1
  | Re.Seq a b => min_len a + min_len b
  | Re.Alt a b => Nat.min (min_len a) (min_len b)
  | Re.Star _ => 0
  end.

(** Every word of [r] has the character [x]: a sufficient syntactic test. *)
Fixpoint has_char (x : ascii) (r : Re.regex) : bool :=
  match r with
  | Re.Eps => false
  | Re.Cls p => List.forallb (fun c => implb (p c) (Ascii.eqb c x)) all_ascii
  | Re.Seq a b => has_char x a || has_char x b
  | Re.Alt a b => has_char x a && has_char x b
  | Re.Star _ => false
  end.

Definition not_space (c : ascii) : bool := negb (Chars.is_space c).

End Language.





(** ** The rules of [analyze_url], as a table *)

Section RuleTable.
Import ScamDetector.

(** One row per rule, in the order of evaluation: whether the rule holds for
    the URL, what it adds to the score, and the reason it records. *)
Definition rules_table (url : string) : list (bool * Z * string) :=
  let url_lower := Str.lower url in
  List.map (fun keyword =>
              (Str.contains keyword url_lower, 15, "Contains keyword: " +:+ keyword))
           phishing_keywords ++
  [ (existsb (fun shortener => Str.contains shortener url_lower) shorteners,
     20, "Shortened URL");
    (Str.contains "@" url, 25, "Contains @ symbol");
    (1 <? Str.count "//" url, 20, "Multiple slashes");
    (existsb (fun tld => Str.contains tld url_lower) suspicious_tlds,
     15, "Suspicious TLD");
    (Re.search ip_pattern url, 20, "IP address in URL");
    (100 <? Str.len url, 10, "Unusually long URL");
    (3 <? Str.count "-" url_lower, 10, "Multiple hyphens") ].

(** The rows whose rule holds. *)
Definition triggered (table : list (bool * Z * string)) : list (bool * Z * string) :=
  List.filter (fun row => fst (fst row)) table.

Definition deltas (rows : list (bool * Z * string)) : Z :=
  fold_right (fun row acc => snd (fst row) + acc) 0 rows.

Definition labels (rows : list (bool * Z * string)) : list string :=
  List.map snd rows.

(** One rule applied to the score and the reasons so far. *)
Definition apply_row (st : scoring) (row : bool * Z * string) : scoring :=
  rule (fst (fst row)) (snd (fst row)) (snd row) st.

(** The 25 reasons that [analyze_url] can record, in the order of the rules. *)
Definition all_reasons : list string :=
  List.map (fun keyword => "Contains keyword: " +:+ keyword) phishing_keywords ++
  ["Shortened URL"; "Contains @ symbol"; "Multiple slashes"; "Suspicious TLD";
   "IP address in URL"; "Unusually long URL"; "Multiple hyphens"].

End RuleTable.

(** ** Patterns and needles that a character map leaves alone *)

Section Stability.

(** Every class of [r] gives the same answer on [c] and on [f c]. *)
Fixpoint classes_stable (f : ascii -> ascii) (r : Re.regex) : bool :=
  match r with
  | Re.Eps => true
  | Re.Cls p => List.forallb (fun c => Bool.eqb (p (f c)) (p c)) all_ascii
  | Re.Seq a b | Re.Alt a b => classes_stable f a && classes_stable f b
  | Re.Star a => classes_stable f a
  end.

(** Every character of the needle is equal to [c] exactly when it is equal
    to [f c]. *)
Definition needle_stable (f : ascii -> ascii) (needle : string) : bool :=
  Str.forallb
    (fun x => List.forallb (fun c => Bool.eqb (Ascii.eqb x (f c)) (Ascii.eqb x c)) all_ascii)
    needle.

End Stability.

(** ** Vocabulary for the normal form *)

Section NormalVocabulary.

(** The characters of [s] that satisfy [p], in order. *)
Fixpoint str_filter (p : ascii -> bool) (s : string) : string :=
  match s with
  | EmptyString => EmptyString
  | String c s' => if p c then String c (str_filter p s') else str_filter p s'
  end.

Definition not_word (c : ascii) : bool := negb (Chars.is_word c).

(** The shape of the texts that [preprocess_text] returns. *)
Definition normal_form (t : string) : Prop :=
  Str.forallb normal_char t = true /\
  Str.startswith_char Chars.is_space t = false /\
  Str.endswith_char Chars.is_space t = false /\
  Str.contains "  " t = false.

End NormalVocabulary.





(** ** Training: [ScamDetector.train] *)

(** scikit-learn as [train] uses it.  The two fitting calls change their
    object in place, so they answer with the new object next to what the
    call returned or raised. *)
Class SklearnTraining `{Sklearn} : Type := {
  Matrix : Type;
  train_test_split :
    list string -> list Z -> Q ->
    sklearn_result (list string * list string * list Z * list Z);
  vec_fit_transform : Vectorizer -> list string -> Vectorizer * sklearn_result Matrix;
  vec_transform_batch : Vectorizer -> list string -> sklearn_result Matrix;
  clf_fit : Classifier -> Matrix -> list Z -> Classifier * sklearn_result unit;
  clf_predict_batch : Classifier -> Matrix -> sklearn_result (list Z);
  accuracy_score : list Z -> list Z -> sklearn_result Q;
  precision_score : list Z -> list Z -> sklearn_result Q;
  recall_score : list Z -> list Z -> sklearn_result Q;
  f1_score : list Z -> list Z -> sklearn_result Q
}.

Module Training.
Import ScamDetector.

Record Metrics : Type := {
  accuracy : Q;
  precision : Q;
  recall : Q;
  f1 : Q
}.

(** What a method leaves behind: what it returned or raised, the detector
    object and the files. *)
Definition outcome `{Sklearn} (A : Type) : Type := result A * detector * files.

(** A call into scikit-learn in the middle of a method: when it raises, the
    method ends there with the detector and the files as they are. *)
Definition attempt `{Sklearn} {A B : Type} (r : sklearn_result A)
    (self : detector) (fs : files) (k : A -> outcome B) : outcome B :=
  match r with
  | inl msg => (raise (SklearnError msg), self, fs)
  | inr a => k a
  end.

Definition set_vectorizer `{Sklearn} (self : detector) (v : Vectorizer) : detector :=
  {| model_dir := model_dir self; vectorizer := v;
     classifier := classifier self; is_trained := is_trained self |}.

Definition set_classifier `{Sklearn} (self : detector) (c : Classifier) : detector :=
  {| model_dir := model_dir self; vectorizer := vectorizer self;
     classifier := c; is_trained := is_trained self |}.

Definition set_is_trained `{Sklearn} (self : detector) (b : bool) : detector :=
  {| model_dir := model_dir self; vectorizer := vectorizer self;
     classifier := classifier self; is_trained := b |}.

(** [train(texts, labels, test_size, save)]; the log lines are left out. *)
Definition train `{SklearnTraining} (self : detector) (fs : files)
    (texts : list string) (labels : list Z) (test_size : Q) (save : bool)
  : outcome Metrics :=
  let processed_texts := List.map preprocess_text texts in
  attempt (train_test_split processed_texts labels test_size) self fs
    (fun '(X_train, X_test, y_train, y_test) =>
  let '(v, fitted) := vec_fit_transform (vectorizer self) X_train in
  let self := set_vectorizer self v in
  attempt fitted self fs (fun X_train_vec =>
  attempt (vec_transform_batch (vectorizer self) X_test) self fs (fun X_test_vec =>
  let '(c, fitted) := clf_fit (classifier self) X_train_vec y_train in
  let self := set_classifier self c in
  attempt fitted self fs (fun _ =>
  attempt (clf_predict_batch (classifier self) X_test_vec) self fs (fun y_pred =>
  attempt (accuracy_score y_test y_pred) self fs (fun acc =>
  attempt (precision_score y_test y_pred) self fs (fun prec =>
  attempt (recall_score y_test y_pred) self fs (fun rec =>
  attempt (f1_score y_test y_pred) self fs (fun f =>
  let metrics := {| accuracy := acc; precision := prec; recall := rec; f1 := f |} in
  let self := set_is_trained self true in
  if save
  then match save_model self fs with
       | inr fs' => (ret metrics, self, fs')
       | inl e => (raise e, self, fs)
       end
  else (ret metrics, self, fs)))))))))).

End Training.

(** ** The command line: [predict_message] of [predict.py] *)

Module PredictCli.
Import ScamDetector.

(** [predict_message(message, model_dir)]: the value it returns ([None] after
    the model was not found); what it prints and logs is left out. *)
Definition predict_message `{Sklearn} `{SetOrder}
    (message model_dir : string) (fs : files) : result (option DetectionResult) :=
  let detector := init model_dir in
  match load_model detector fs with
  | inl (FileNotFoundError _) => ret None
  | inl e => raise e
  | inr detector =>
      do result <- predict detector message;
      ret (Some result)
  end.

End PredictCli.

(** ** The HTTP interface: [api.py] *)

Module Api.
Import ScamDetector.

(** The value of [request.get_json()]. *)
Inductive json : Type :=
| JNull
| JBool (b : bool)
| JNumber (n : Q)
| JString (s : string)
| JArray (items : list json)
| JObject (fields : gmap string json).

(** What a handler can catch in its [except Exception]: an exception of the
    detector, a [TypeError], [AttributeError] or [KeyError] on a JSON value
    of the wrong type, or whatever [get_json] raised. *)
Inductive py_exn : Type :=
| Raised (e : exn)
| TypeError
| AttributeError
| KeyError (key : string)
| BadRequest.

Definition py_result (A : Type) : Type := py_exn + A.

(** Truth value of a JSON value in Python. *)
Definition truthy (v : json) : bool :=
  match v with
  | JNull => false
  | JBool b => b
  | JNumber n => negb (Qeq_bool n 0)
  | JString s => negb (String.eqb s "")
  | JArray items => negb (Nat.eqb (length items) 0)
  | JObject fields => negb (Nat.eqb (size fields) 0)
  end.

(** [key in data] *)
Definition py_in (key : string) (data : json) : py_result bool :=
  match data with
  | JObject fields => inr (bool_decide (is_Some (fields !! key)))
  | JArray items =>
      inr (existsb (fun v => match v with
                             | JString s => String.eqb s key
                             | _ => false
                             end) items)
  | JString s => inr (Str.contains key s)
  | JNull | JBool _ | JNumber _ => inl TypeError
  end.

(** [data[key]], after [key in data] held *)
Definition py_getitem (data : json) (key : string) : py_result json :=
  match data with
  | JObject fields =>
      match fields !! key with
      | Some v => inr v
      | None => inl (KeyError key)
      end
  | _ => inl TypeError
  end.

(** [message.strip()] *)
Definition py_strip (v : json) : py_result string :=
  match v with
  | JString s => inr (Str.strip s)
  | _ => inl AttributeError
  end.

(** [if message and message.strip()], and the string that is then passed
    on. *)
Definition non_blank (v : json) : py_result (option string) :=
  if truthy v
  then match v with
       | JString s => inr (if String.eqb (Str.strip s) "" then None else Some s)
       | _ => inl AttributeError
       end
  else inr None.

Inductive body : Type :=
| ErrorMessage (error : string)
| Failure (e : py_exn)
| Detection (data : DetectionResult)
| Analysis (data : UrlAnalysis)
| Batch (data : list DetectionResult) (total : Z)
| Health (model_loaded : bool).

Definition response : Type := body * Z.

(** [try: ... except Exception as e: return jsonify(success=False,
    error=str(e)), 500] *)
Definition catch (r : py_result response) : response :=
  match r with
  | inl e => (Failure e, 500)
  | inr resp => resp
  end.

Definition pbind {A B : Type} (m : py_result A) (f : A -> py_result B) : py_result B :=
  match m with
  | inl e => inl e
  | inr a => f a
  end.

Notation "'py' x <- m ; f" := (pbind m (fun x => f))
  (at level 10, x name, m at level 100, f at level 200).

Definition of_detector {A : Type} (r : result A) : py_result A :=
  match r with
  | inl e => inl (Raised e)
  | inr a => inr a
  end.

(** The module-level detector: constructed, then loaded when the model
    files are there. *)
Definition startup `{Sklearn} (fs : files) : detector :=
  let detector := init "./models" in
  match load_model detector fs with
  | inr detector => detector
  | inl _ => detector
  end.

(** [GET /health] *)
Definition health `{Sklearn} (detector : detector) : response :=
  (Health (is_trained detector), 200).

(** The checks that [detect_scam] and [analyze_url] share: the field is
    there, and it is a string that is not blank. *)
Definition required_field (request : py_result json) (key missing empty : string)
  : py_result (response + string) :=
  py data <- request;
  if negb (truthy data) then inr (inl (ErrorMessage missing, 400))
  else
    py present <- py_in key data;
    if negb present then inr (inl (ErrorMessage missing, 400))
    else
      py message <- py_getitem data key;
      if negb (truthy message) then inr (inl (ErrorMessage empty, 400))
      else
        py stripped <- py_strip message;
        if String.eqb stripped "" then inr (inl (ErrorMessage empty, 400))
        else match message with
             | JString s => inr (inr s)
             | _ => inl AttributeError
             end.

(** [POST /api/detect] *)
Definition detect_scam `{Sklearn} `{SetOrder} (detector : detector)
    (request : py_result json) : response :=
  catch (
    py checked <- required_field request "message"
                    "Message field is required" "Message cannot be empty";
    match checked with
    | inl resp => inr resp
    | inr message =>
        py result <- of_detector (predict detector message);
        inr (Detection result, 200)
    end).

(** [POST /api/analyze-url] *)
Definition analyze_url_endpoint (request : py_result json) : response :=
  catch (
    py checked <- required_field request "url"
                    "URL field is required" "URL cannot be empty";
    match checked with
    | inl resp => inr resp
    | inr url => inr (Analysis (analyze_url url), 200)
    end).

(** The loop of [batch_detect]. *)
Fixpoint batch_loop `{Sklearn} `{SetOrder} (detector : detector)
    (messages : list json) (results : list DetectionResult)
  : py_result (list DetectionResult) :=
  match messages with
  | [] => inr results
  | message :: messages' =>
      py checked <- non_blank message;
      match checked with
      | Some message =>
          py result <- of_detector (predict detector message);
          batch_loop detector messages' (results ++ [result])
      | None => batch_loop detector messages' results
      end
  end.

(** [POST /api/batch-detect] *)
Definition batch_detect `{Sklearn} `{SetOrder} (detector : detector)
    (request : py_result json) : response :=
  catch (
    py data <- request;
    if negb (truthy data) then inr (ErrorMessage "Messages array is required", 400)
    else
      py present <- py_in "messages" data;
      if negb present then inr (ErrorMessage "Messages array is required", 400)
      else
        py messages <- py_getitem data "messages";
        match messages with
        | JArray messages =>
            py results <- batch_loop detector messages [];
            inr (Batch results (Z.of_nat (length results)), 200)
        | _ => inr (ErrorMessage "Messages must be an array", 400)
        end).

End Api.

(** ** More concrete instances, for examples *)

Definition share_of_scam (y : list Z) : Q :=
  Qmake (Z.of_nat (length (List.filter (Z.eqb 1) y))) (Pos.of_nat (length y)).

(** A stand-in for scikit-learn at training time: the split keeps every
    sample on both sides and refuses lists of different lengths, the fitted
    classifier is the share of scam labels, and every metric is 1. *)
Definition stub_training : @SklearnTraining stub_model :=
  {| Matrix := list string;
     train_test_split := fun texts labels _ =>
       if Nat.eqb (length texts) (length labels)
       then inr (texts, texts, labels, labels)
       else inl "Found input variables with inconsistent numbers of samples";
     vec_fit_transform := fun v X => (v, inr X);
     vec_transform_batch := fun _ X => inr X;
     clf_fit := fun _ _ y => (share_of_scam y : @Classifier stub_model, inr tt);
     clf_predict_batch := fun c X =>
       inr (List.map (fun _ => if Qle_bool 0.5 c then 1 else 0) X);
     accuracy_score := fun _ _ => inr 1%Q;
     precision_score := fun _ _ => inr 1%Q;
     recall_score := fun _ _ => inr 1%Q;
     f1_score := fun _ _ => inr 1%Q |}.

Definition stub_train (texts : list string) (labels : list Z) (save : bool)
  : @Training.outcome stub_model Training.Metrics :=
  @Training.train stub_model stub_training
    (@ScamDetector.init stub_model models_dir) no_files texts labels 0.2 save.

Definition sample_texts : list string :=
  ["You won a PRIZE, claim now!"; "See you at lunch"].

Definition sample_labels : list Z := [1; 0].

(** A request body with one field. *)
Definition body_with (key : string) (v : Api.json) : Api.py_result Api.json :=
  inr (Api.JObject {[ key := v ]}).

(** Whether [s.strip()] is empty. *)
Definition blank (s : string) : bool := String.eqb (Str.strip s) "".







(** * Properties *)

(** ** The matcher *)

Section Matcher.

(** The matcher depends on its continuation only through its answers. *)
Lemma run_ext r : forall k1 k2,
  (forall s, k1 s = k2 s) -> forall s, Re.run r k1 s = Re.run r k2 s.
Proof.
  induction r as [| p | a IHa b IHb | a IHa b IHb | a IHa]; intros k1 k2 Hk s;
    cbn [Re.run].
  - apply Hk.
  - destruct s as [| c s]; [reflexivity |]. destruct (p c); [apply Hk | reflexivity].
  - apply IHa. intros s'. apply IHb, Hk.
  - rewrite (IHa k1 k2 Hk s), (IHb k1 k2 Hk s). reflexivity.
  - generalize (S (String.length s)) as fuel. intros fuel. revert s.
    induction fuel as [| fuel IH]; intros s; cbn [Re.loop]; [apply Hk |].
    rewrite Hk. erewrite IHa; [reflexivity |].
    intros s'. cbv beta. destruct (String.length s' <? String.length s)%nat;
      [apply IH | reflexivity].
Qed.

(** Any fuel above the length of the subject gives the same loop: the fuel
    in [run] is enough. *)
Lemma loop_fuel a k : forall fuel1 fuel2 s,
  (String.length s < fuel1)%nat -> (String.length s < fuel2)%nat ->
  Re.loop (Re.run a) k fuel1 s = Re.loop (Re.run a) k fuel2 s.
Proof.
  induction fuel1 as [| fuel1 IH]; intros fuel2 s H1 H2; [lia |].
  destruct fuel2 as [| fuel2]; [lia |]. cbn [Re.loop].
  erewrite run_ext; [reflexivity |].
  intros s'. cbv beta.
  destruct (String.length s' <? String.length s)%nat eqn:E; [| reflexivity].
  apply Nat.ltb_lt in E. apply IH; lia.
Qed.

End Matcher.

(** ** The URL risk scorer *)

Section Scoring.
Import ScamDetector.

Lemma scoring_inv_init : scoring_inv (0, []).
Proof. split; simpl; [lia | tauto]. Qed.

Lemma rule_inv cond delta reason st :
  0 < delta -> scoring_inv st -> scoring_inv (rule cond delta reason st).
Proof.
  intros Hd [Hnn Hiff]. unfold rule. destruct cond; [| split; assumption].
  split; simpl; [lia |]. split.
  - intros E. destruct (snd st); discriminate E.
  - lia.
Qed.

Lemma keyword_rules_inv url_lower st :
  scoring_inv st -> scoring_inv (keyword_rules url_lower st).
Proof.
  unfold keyword_rules. generalize phishing_keywords as kws.
  intros kws. revert st. induction kws as [| kw kws IH]; intros st Hst; simpl.
  - exact Hst.
  - apply IH. apply rule_inv; [lia | exact Hst].
Qed.

Lemma apply_rules_inv u : scoring_inv (apply_rules u).
Proof.
  unfold apply_rules. cbv zeta.
  do 7 (apply rule_inv; [lia |]).
  apply keyword_rules_inv, scoring_inv_init.
Qed.

Lemma analyze_url_fields u :
  suspicion_score (analyze_url u) = Z.min (fst (apply_rules u)) 100 /\
  is_suspicious (analyze_url u) = (40 <=? Z.min (fst (apply_rules u)) 100) /\
  reasons (analyze_url u) = snd (apply_rules u) /\
  url (analyze_url u) = u.
Proof. unfold analyze_url. destruct (apply_rules u); simpl. auto. Qed.

(** A rule that fires appends its reason, and later rules keep it. *)
Lemma rule_keeps cond delta reason st r :
  In r (snd st) -> In r (snd (rule cond delta reason st)).
Proof.
  intros Hin. unfold rule. destruct cond; simpl; [| exact Hin].
  apply in_or_app. left. exact Hin.
Qed.

Lemma rule_fires delta reason st :
  rule true delta reason st = (fst st + delta, snd st ++ [reason]).
Proof. reflexivity. Qed.

(** The shortener rule of [analyze_url] on the hosts the code lists. *)
Lemma shortener_rule_listed u :
  existsb (fun shortener => Str.contains shortener (Str.lower u)) shorteners = true ->
  In "Shortened URL" (reasons (analyze_url u)).
Proof.
  intros Hex. destruct (analyze_url_fields u) as (_ & _ & -> & _).
  unfold apply_rules. rewrite Hex.
  do 6 apply rule_keeps.
  rewrite rule_fires. simpl. apply in_or_app. right. left. reflexivity.
Qed.

Lemma startswith_prefix a b s :
  Str.startswith (a +:+ b) s = true -> Str.startswith a s = true.
Proof.
  revert s. induction a as [| x a IH]; intros s; [destruct s; reflexivity |].
  change (String x a +:+ b) with (String x (a +:+ b)).
  destruct s as [| y s]; cbn [Str.startswith]; [discriminate |].
  intros H. apply andb_prop in H as [-> H]. rewrite (IH s H). reflexivity.
Qed.

Lemma contains_prefix a b s :
  Str.contains (a +:+ b) s = true -> Str.contains a s = true.
Proof.
  induction s as [| y s IH]; cbn [Str.contains]; intros H;
    apply orb_prop in H as [H | H]; try discriminate H.
  - rewrite (startswith_prefix a b _ H). reflexivity.
  - rewrite (startswith_prefix a b _ H). reflexivity.
  - rewrite (IH H). apply orb_true_r.
Qed.

(** Of the six hosts that [extract_urls] knows as shorteners, five trigger
    the shortener rule ([tinyurl.com] through the entry [tinyurl]). *)
Lemma shortener_rule_five_hosts u host :
  In host ["bit.ly"; "tinyurl.com"; "goo.gl"; "t.co"; "cutt.ly"] ->
  Str.contains host (Str.lower u) = true ->
  In "Shortened URL" (reasons (analyze_url u)).
Proof.
  intros Hin Hc. apply shortener_rule_listed. apply existsb_exists.
  cbn [In] in Hin.
  destruct Hin as [<- | [<- | [<- | [<- | [<- | []]]]]];
    [exists "bit.ly" | exists "tinyurl" | exists "goo.gl" | exists "t.co" | exists "cutt.ly"];
    (split; [unfold shorteners; cbn [In]; tauto |]); try exact Hc.
  apply (contains_prefix "tinyurl" ".com"). exact Hc.
Qed.

(** C6. For every URL [u] the score of [analyze_url u] lies between 0 and
    100, and the URL is flagged suspicious exactly when the score is at
    least 40. *)
Theorem analyze_url_score_bounds (u : string) :
  0 <= suspicion_score (analyze_url u) <= 100 /\
  (is_suspicious (analyze_url u) = true <-> 40 <= suspicion_score (analyze_url u)).
Proof.
  destruct (analyze_url_fields u) as (-> & -> & _ & _).
  destruct (apply_rules_inv u) as [Hnn _].
  split; [lia |]. apply Z.leb_le.
Qed.

(** C10. For every URL [u] the reasons of [analyze_url u] are non-empty
    exactly when the score is positive; hence a URL flagged suspicious has
    a reason. *)
Theorem analyze_url_reasons_iff_positive (u : string) :
  (reasons (analyze_url u) <> [] <-> 0 < suspicion_score (analyze_url u)) /\
  (is_suspicious (analyze_url u) = true -> reasons (analyze_url u) <> []).
Proof.
  destruct (analyze_url_fields u) as (-> & -> & -> & _).
  destruct (apply_rules_inv u) as [Hnn Hiff].
  assert (Hpos : snd (apply_rules u) <> [] <-> 0 < Z.min (fst (apply_rules u)) 100).
  { split.
    - intros Hne. destruct (Z.eq_dec (fst (apply_rules u)) 0) as [E | E].
      + exfalso. apply Hne, Hiff, E.
      + lia.
    - intros Hlt Hnil. apply Hiff in Hnil. lia. }
  split; [exact Hpos |].
  intros Hs. apply Hpos. apply Z.leb_le in Hs. lia.
Qed.

(** C4. The host [ow.ly], which [extract_urls] treats as a shortener, is
    missing from the list of [analyze_url]: the URL [ow.ly/abc123] is
    extracted from a message, contains the host, and is scored 0 with no
    reason. *)
Theorem analyze_url_misses_ow_ly :
  In "ow.ly/abc123" (url_matches "Pay at ow.ly/abc123 now") /\
  Str.contains "ow.ly" (Str.lower "ow.ly/abc123") = true /\
  analyze_url "ow.ly/abc123" =
    {| url := "ow.ly/abc123"; suspicion_score := 0; is_suspicious := false;
       reasons := [] |}.
Proof. vm_compute. intuition. Qed.

End Scoring.

(** ** The URL extractor *)

Section Extraction.
Import ScamDetector.

Lemma set_to_list_NoDup `{SetOrder} (X : gset string) : NoDup (set_to_list X).
Proof. rewrite set_to_list_perm. apply NoDup_elements. Qed.

Lemma elem_of_set_to_list `{SetOrder} (X : gset string) u : u ∈ set_to_list X <-> u ∈ X.
Proof. rewrite set_to_list_perm. apply elem_of_elements. Qed.

(** The output holds exactly the matches of the three patterns. *)
Lemma elem_of_extract_urls `{SetOrder} s u : u ∈ extract_urls s <-> u ∈ url_matches s.
Proof.
  unfold extract_urls. rewrite elem_of_set_to_list. apply elem_of_list_to_set.
Qed.

Lemma extract_urls_NoDup `{SetOrder} s : NoDup (extract_urls s).
Proof. apply set_to_list_NoDup. Qed.

(** C8. Whatever the iteration order of the set, [extract_urls s] has no
    duplicates; two calls (under any two iteration orders) give the same set
    of strings; and a URL that the patterns match, however often, occurs in
    the output exactly once. *)
Theorem extract_urls_dedup (order1 order2 : SetOrder) (s : string) :
  NoDup (@extract_urls order1 s) /\
  (list_to_set (@extract_urls order1 s) : gset string) =
    list_to_set (@extract_urls order2 s) /\
  (forall u, count_occ string_dec (@extract_urls order1 s) u <= 1)%nat /\
  (forall u, In u (url_matches s) ->
             count_occ string_dec (@extract_urls order1 s) u = 1%nat).
Proof.
  pose proof (@extract_urls_NoDup order1 s) as Hnd.
  repeat split.
  - exact Hnd.
  - apply set_eq. intros u.
    rewrite !elem_of_list_to_set, !elem_of_extract_urls. reflexivity.
  - apply NoDup_count_occ, NoDup_ListNoDup, Hnd.
  - intros u Hin. apply NoDup_count_occ'; [apply NoDup_ListNoDup, Hnd |].
    apply list_elem_of_In, elem_of_extract_urls, list_elem_of_In, Hin.
Qed.

(** A message that repeats a URL: three matches, one element. *)
Example extract_urls_repeated :
  url_matches "bit.ly/abc or bit.ly/abc, bit.ly/abc" =
    ["bit.ly/abc"; "bit.ly/abc"; "bit.ly/abc"] /\
  @extract_urls canonical_order "bit.ly/abc or bit.ly/abc, bit.ly/abc" = ["bit.ly/abc"].
Proof. split; vm_compute; reflexivity. Qed.

End Extraction.

(** ** The fusion engine *)

Section Fusion.
Import ScamDetector.

Lemma max2_ge_r a b : (b <= max2 a b)%Q.
Proof.
  unfold max2. destruct (Qle_bool b a) eqn:E.
  - apply Qle_bool_iff, E.
  - apply Qle_refl.
Qed.

Lemma preliminary_prediction_cases c :
  (preliminary_prediction c = 1 /\ (0.5 <= c)%Q) \/
  (preliminary_prediction c = 0 /\ (c < 0.5)%Q).
Proof.
  unfold preliminary_prediction. destruct (Qle_bool 0.5 c) eqn:E.
  - left. split; [reflexivity | apply Qle_bool_iff, E].
  - right. split; [reflexivity |]. apply Qnot_le_lt. intros Hle.
    apply Qle_bool_iff in Hle. congruence.
Qed.

(** The fields of [fuse], in terms of the values [predict] computes on the
    way. *)
Lemma fuse_fields `{SetOrder} text probability :
  let r := fuse text probability in
  let analyses := List.map analyze_url (extract_urls text) in
  let m := max_default (List.map suspicion_score analyses) 0 in
  let h := existsb is_suspicious analyses in
  let c := combined_score (snd probability) m in
  let o := override h (preliminary_prediction c) c in
  url_analyses r = analyses /\
  max_url_suspicion_score r = m /\
  has_suspicious_urls r = h /\
  text_scam_probability r = snd probability /\
  is_scam r = negb (fst o =? 0) /\
  confidence r = snd o /\
  result_reasons r = build_reasons (snd probability) h (fst o).
Proof.
  cbv zeta. unfold fuse.
  destruct (override _ _ _) as [fp c]. simpl. repeat split; reflexivity.
Qed.

(** [predict] returns a result only in the trained state, and the result is
    the fusion of the message with the classifier's probabilities. *)
Lemma predict_inr `{Sklearn} `{SetOrder} self text r :
  predict self text = inr r ->
  is_trained self = true /\ exists probability, r = fuse text probability.
Proof.
  unfold predict. destruct (is_trained self); simpl; [| discriminate].
  destruct (vec_transform _ _) as [? | X]; simpl; [discriminate |].
  destruct (clf_predict _ _) as [? | y]; simpl; [discriminate |].
  destruct (clf_predict_proba _ _) as [? | pr]; simpl; [discriminate |].
  intros E. injection E as <-. split; [reflexivity | exists pr; reflexivity].
Qed.

(** In the trained state [predict] returns whenever scikit-learn does. *)
Lemma predict_trained_returns `{Sklearn} `{SetOrder} self text X y probability :
  is_trained self = true ->
  vec_transform (vectorizer self) (preprocess_text text) = inr X ->
  clf_predict (classifier self) X = inr y ->
  clf_predict_proba (classifier self) X = inr probability ->
  predict self text = inr (fuse text probability).
Proof.
  intros Ht HX Hy Hp. unfold predict. rewrite Ht. cbn [negb].
  rewrite HX. cbn [sklearn_call bind]. rewrite Hy. cbn [sklearn_call bind].
  rewrite Hp. reflexivity.
Qed.

Lemma override_cases h c :
  let o := override h (preliminary_prediction c) c in
  (h = true /\ (c < 0.5)%Q /\ o = (1, max2 c 0.6)) \/
  (h = false /\ (c < 0.5)%Q /\ o = (0, c)) \/
  ((0.5 <= c)%Q /\ o = (1, c)).
Proof.
  cbv zeta. unfold override.
  destruct (preliminary_prediction_cases c) as [[-> Hc] | [-> Hc]]; simpl.
  - right. right. rewrite andb_false_r. auto.
  - destruct h; simpl; auto.
Qed.

Lemma stub_predict_suspicious :
  stub_predict 0.4 suspicious_message = inr suspicious_result.
Proof. vm_compute. reflexivity. Qed.




(** *** The reasons *)

Lemma text_reason_not_safe p : text_reason p <> safe_reason.
Proof. unfold text_reason, safe_reason. simpl. discriminate. Qed.

Lemma text_reason_not_urls p : text_reason p <> urls_reason.
Proof. unfold text_reason, urls_reason. simpl. discriminate. Qed.

(** The reasons that [build_reasons] records, one per condition. *)
Lemma build_reasons_In p h fp x :
  In x (build_reasons p h fp) <->
  (Qle_bool p 0.6 = false /\ x = text_reason p) \/
  (h = true /\ x = urls_reason) \/
  (fp = 0 /\ x = safe_reason).
Proof.
  unfold build_reasons. fold (text_reason p). fold urls_reason. fold safe_reason.
  destruct (Qle_bool p 0.6), h, (Z.eqb_spec fp 0); simpl;
    intuition (try congruence; try discriminate; auto).
Qed.

(** C3, as stated, fails: a message without URLs whose text scam
    probability is 0.7 has the combined score 0.42, so the verdict is benign,
    and yet the text reason is recorded next to the safe reason. *)
Lemma safe_reason_with_text_reason :
  exists r,
    stub_predict 0.7 calm_message = inr r /\
    is_scam r = false /\
    result_reasons r = ["High scam probability in text (70.00%)"; "Message appears safe"].
Proof. exists calm_result. vm_compute. auto. Qed.

(** C3, amended. The reason "Message appears safe" is recorded exactly when
    the final verdict is benign, and never together with the reason
    "Contains suspicious URLs". *)
Theorem safe_reason_iff_benign `{Sklearn} `{SetOrder}
    (self : detector) (text : string) (r : DetectionResult) :
  predict self text = inr r ->
  (In safe_reason (result_reasons r) <-> is_scam r = false) /\
  ~ (In safe_reason (result_reasons r) /\ In urls_reason (result_reasons r)).
Proof.
  intros Hp. apply predict_inr in Hp as [_ [pr ->]].
  destruct (fuse_fields text pr) as (_ & _ & _ & _ & Hs & _ & Hr).
  rewrite Hs, Hr. clear Hs Hr.
  set (h := existsb is_suspicious (List.map analyze_url (extract_urls text))).
  set (c := combined_score _ _).
  assert (Hsafe : forall fp, In safe_reason (build_reasons (snd pr) h fp) <-> fp = 0).
  { intros fp. rewrite build_reasons_In. split.
    - intros [[_ E] | [[_ E] | [E _]]]; [| discriminate E | exact E].
      symmetry in E. apply text_reason_not_safe in E. destruct E.
    - intros E. right. right. split; [exact E | reflexivity]. }
  assert (Hurls : forall fp, In urls_reason (build_reasons (snd pr) h fp) -> h = true).
  { intros fp. rewrite build_reasons_In.
    intros [[_ E] | [[E _] | [_ E]]]; [| exact E | discriminate E].
    symmetry in E. apply text_reason_not_urls in E. destruct E. }
  split.
  - rewrite Hsafe. destruct (fst (override h (preliminary_prediction c) c) =? 0) eqn:E.
    + apply Z.eqb_eq in E. simpl. tauto.
    + apply Z.eqb_neq in E. simpl. split; [tauto | discriminate].
  - intros [H1 H2]. apply Hsafe in H1. apply Hurls in H2.
    destruct (override_cases h c) as [(_ & _ & E) | [(Hf & _ & _) | (_ & E)]];
      [rewrite E in H1; discriminate H1 | congruence | rewrite E in H1; discriminate H1].
Qed.

Lemma safe_reason_iff_benign_witness :
  stub_predict 0.7 calm_message = inr calm_result /\
  ((In safe_reason (result_reasons calm_result) <-> is_scam calm_result = false) /\
   ~ (In safe_reason (result_reasons calm_result) /\
      In urls_reason (result_reasons calm_result))).
Proof.
  split; [vm_compute; reflexivity |].
  apply (@safe_reason_iff_benign stub_model canonical_order
           (stub_detector 0.7) calm_message calm_result).
  vm_compute; reflexivity.
Defined.

(** *** The combined score *)

Lemma fold_left_max_spec l x :
  In (fold_left Z.max l x) (x :: l) /\
  forall y, In y (x :: l) -> y <= fold_left Z.max l x.
Proof.
  revert x. induction l as [| a l IH]; intros x; simpl.
  - split; [left; reflexivity |]. intros y [<- | []]. lia.
  - destruct (IH (Z.max x a)) as [Hin Hub]. split.
    + destruct Hin as [E | Hin]; [| right; right; exact Hin].
      rewrite <- E. destruct (Z.max_spec x a) as [[_ ->] | [_ ->]]; auto.
    + intros y Hy.
      assert (Hxa : Z.max x a <= fold_left Z.max l (Z.max x a))
        by (apply Hub; left; reflexivity).
      destruct Hy as [<- | [<- | Hy]]; [lia | lia |].
      apply Hub. right. exact Hy.
Qed.

Lemma max_default_spec l : spec_max_score (max_default l 0) l.
Proof.
  destruct l as [| x l]; [left; split; reflexivity |].
  right. apply fold_left_max_spec.
Qed.

Lemma combined_score_spec p m : (combined_score p m == spec_combined p m)%Q.
Proof. unfold combined_score, spec_combined. ring. Qed.



(** *** Monotonicity in the text signal *)

Lemma combined_score_monotone p1 p2 m :
  (p1 <= p2)%Q -> (combined_score p1 m <= combined_score p2 m)%Q.
Proof. intros Hle. unfold combined_score. lra. Qed.

Lemma final_confidence_cases h m p :
  (h = true /\ (combined_score p m < 0.5)%Q /\ (final_confidence h m p == 0.6)%Q) \/
  ((h = false \/ (0.5 <= combined_score p m)%Q) /\
   final_confidence h m p = combined_score p m).
Proof.
  unfold final_confidence. cbv zeta.
  destruct (override_cases h (combined_score p m))
    as [(Hh & Hlt & ->) | [(Hh & Hlt & ->) | (Hge & ->)]]; simpl; auto.
  left. repeat split; auto.
  unfold max2. destruct (Qle_bool 0.6 (combined_score p m)) eqn:E; [| reflexivity].
  apply Qle_bool_iff in E. lra.
Qed.

Lemma predict_confidence `{Sklearn} `{SetOrder} self text r :
  predict self text = inr r ->
  url_analyses r = List.map analyze_url (extract_urls text) /\
  confidence r =
    final_confidence (has_suspicious_urls r) (max_url_suspicion_score r)
      (text_scam_probability r) /\
  has_suspicious_urls r = existsb is_suspicious (List.map analyze_url (extract_urls text)) /\
  max_url_suspicion_score r =
    max_default (List.map suspicion_score (List.map analyze_url (extract_urls text))) 0.
Proof.
  intros Hp. apply predict_inr in Hp as [_ [pr ->]].
  destruct (fuse_fields text pr) as (Ha & Hm & Hh & Ht & _ & Hc & _).
  rewrite Ha, Hm, Hh, Ht, Hc. unfold final_confidence. auto.
Qed.

(** C7, as stated, fails: on the same message, raising the scam probability
    from 0.3 to 0.4 lowers the confidence from 0.6 (override) to 0.54. *)
Lemma confidence_not_monotone :
  exists r1 r2,
    stub_predict 0.3 suspicious_message = inr r1 /\
    stub_predict 0.4 suspicious_message = inr r2 /\
    url_analyses r1 = url_analyses r2 /\
    (text_scam_probability r1 < text_scam_probability r2)%Q /\
    (confidence r1 == 0.6)%Q /\ (confidence r2 == 0.54)%Q /\
    (confidence r2 < confidence r1)%Q.
Proof.
  exists (@fuse canonical_order suspicious_message (0.7, 0.3)%Q), suspicious_result.
  vm_compute. repeat split; reflexivity.
Qed.

(** C7, amended. On a fixed message, if the scam probability of one call is
    at most that of another, then the URL analyses agree, the combined score
    before the override does not decrease, and the confidence returned does
    not decrease provided no extracted URL is suspicious or the confidence
    returned for the larger probability is at least 0.6. *)
Theorem fusion_monotone `{Sklearn} `{SetOrder}
    (self1 self2 : detector) (text : string) (r1 r2 : DetectionResult) :
  predict self1 text = inr r1 ->
  predict self2 text = inr r2 ->
  (text_scam_probability r1 <= text_scam_probability r2)%Q ->
  url_analyses r1 = url_analyses r2 /\
  max_url_suspicion_score r1 = max_url_suspicion_score r2 /\
  (combined_score (text_scam_probability r1) (max_url_suspicion_score r1) <=
   combined_score (text_scam_probability r2) (max_url_suspicion_score r2))%Q /\
  (has_suspicious_urls r1 = false \/ (0.6 <= confidence r2)%Q ->
   (confidence r1 <= confidence r2)%Q).
Proof.
  intros Hp1 Hp2 Hle.
  apply predict_confidence in Hp1 as (Ha1 & Hc1 & Hh1 & Hm1).
  apply predict_confidence in Hp2 as (Ha2 & Hc2 & Hh2 & Hm2).
  assert (Hm : max_url_suspicion_score r1 = max_url_suspicion_score r2) by congruence.
  assert (Hh : has_suspicious_urls r1 = has_suspicious_urls r2) by congruence.
  split; [congruence |]. split; [exact Hm |].
  rewrite Hc1, Hc2, Hm, Hh.
  set (m := max_url_suspicion_score r2). set (h := has_suspicious_urls r2).
  set (p1 := text_scam_probability r1) in *. set (p2 := text_scam_probability r2) in *.
  pose proof (combined_score_monotone p1 p2 m Hle) as Hmono.
  split; [exact Hmono |].
  intros Hcond.
  destruct (final_confidence_cases h m p1) as [(Hh1' & Hlt1 & E1) | [Hc1' E1]];
    destruct (final_confidence_cases h m p2) as [(Hh2' & Hlt2 & E2) | [Hc2' E2]].
  - rewrite E1, E2. apply Qle_refl.
  - rewrite E1. rewrite E2 in *. destruct Hcond as [Hf | Hge]; [congruence | exact Hge].
  - rewrite E1, E2. destruct Hc1' as [Hf | Hge]; [congruence | lra].
  - rewrite E1, E2. exact Hmono.
Qed.

Lemma fusion_monotone_witness :
  stub_predict 0.4 calm_message = inr (@fuse canonical_order calm_message (0.6, 0.4)%Q) /\
  stub_predict 0.7 calm_message = inr calm_result /\
  (confidence (@fuse canonical_order calm_message (0.6, 0.4)%Q) <= confidence calm_result)%Q.
Proof.
  split; [vm_compute; reflexivity |]. split; [vm_compute; reflexivity |].
  apply (@fusion_monotone stub_model canonical_order
           (stub_detector 0.4) (stub_detector 0.7) calm_message
           (@fuse canonical_order calm_message (0.6, 0.4)%Q) calm_result).
  - vm_compute; reflexivity.
  - vm_compute; reflexivity.
  - vm_compute. discriminate.
  - left. vm_compute. reflexivity.
Defined.

End Fusion.

(** ** The trained state *)

Section Lifecycle.
Import ScamDetector.

(** Scenario D: [predict] on a detector that was just constructed. *)
Example predict_before_training `{Sklearn} `{SetOrder} (text : string) :
  predict (init models_dir) text = inl (ValueError not_trained_message).
Proof. reflexivity. Qed.


(** The files written from an untrained detector load into a detector that
    counts as trained. *)
Example load_after_untrained_save :
  exists fs d,
    save_model (@init stub_model models_dir) no_files = inr fs /\
    load_model (@init stub_model models_dir) fs = inr d /\
    is_trained d = true.
Proof.
  eexists. eexists. split; [reflexivity |]. split; vm_compute; reflexivity.
Qed.


End Lifecycle.

(** ** The text normaliser *)

Section Normalizer.
Import ScamDetector.

(** *** The two substitutions, as functions on the characters *)

Lemma succ_sub_self n : (S n - n = 1)%nat.
Proof. lia. Qed.

Lemma sub_from_skip r repl s n :
  Re.sub_from r repl s n = Re.sub_from r repl (Str.drop n s) 0.
Proof.
  revert n. induction s as [| c s IH]; intros [| n]; simpl; try reflexivity.
  apply IH.
Qed.

Lemma sub_class p (b : ascii) s :
  Re.sub (Re.Cls p) (String b EmptyString) s = Str.map (fun c => if p c then b else c) s.
Proof.
  unfold Re.sub. induction s as [| c s IH]; [reflexivity |].
  cbn [Re.sub_from Str.map]. unfold Re.match_at. cbn [Re.run].
  destruct (p c); [| rewrite IH; reflexivity].
  cbn [String.length]. rewrite succ_sub_self. cbn. rewrite IH. reflexivity.
Qed.

Lemma sub_punct s : Re.sub not_word_not_space " " s = Str.map blank_punct s.
Proof. apply sub_class. Qed.

(** The greedy loop over a character class takes the whole run. *)
Lemma loop_spaces fuel s :
  (String.length s < fuel)%nat ->
  Re.loop (Re.run (Re.Cls Chars.is_space)) Some fuel s = Some (Str.lstrip s).
Proof.
  revert s. induction fuel as [| fuel IH]; intros s Hlt; [lia |].
  destruct s as [| c s]; [reflexivity |].
  cbn [Re.loop Re.run Str.lstrip]. destruct (Chars.is_space c); [| reflexivity].
  cbn [String.length] in *.
  replace (String.length s <? S (String.length s))%nat with true
    by (symmetry; apply Nat.ltb_lt; lia).
  rewrite IH by lia. reflexivity.
Qed.

Lemma lstrip_length s : (String.length (Str.lstrip s) <= String.length s)%nat.
Proof.
  induction s as [| c s IH]; simpl; [lia |].
  destruct (Chars.is_space c); simpl; lia.
Qed.

Lemma drop_lstrip s :
  Str.drop (String.length s - String.length (Str.lstrip s)) s = Str.lstrip s.
Proof.
  induction s as [| c s IH]; [reflexivity |].
  cbn [Str.lstrip]. destruct (Chars.is_space c).
  - pose proof (lstrip_length s) as Hle. cbn [String.length].
    replace (S (String.length s) - String.length (Str.lstrip s))%nat
      with (S (String.length s - String.length (Str.lstrip s))) by lia.
    exact IH.
  - rewrite Nat.sub_diag. reflexivity.
Qed.

Lemma take_length n s : (n <= String.length s)%nat -> String.length (Str.take n s) = n.
Proof.
  revert s. induction n as [| n IH]; intros [| c s] Hle; simpl in *; try lia.
  rewrite IH; lia.
Qed.

Lemma match_at_spaces c s :
  Re.match_at spaces (String c s) =
    if Chars.is_space c
    then Some (Str.take (S (String.length s) - String.length (Str.lstrip s)) (String c s),
               Str.lstrip s)
    else None.
Proof.
  unfold Re.match_at, spaces, Re.Plus. cbn [Re.run].
  destruct (Chars.is_space c); [| reflexivity].
  rewrite loop_spaces by lia. reflexivity.
Qed.

(** [re.sub(r'\s+', ' ', s)], one step. *)
Lemma sub_spaces_step c s :
  Re.sub spaces " " (String c s) =
    if Chars.is_space c
    then String " " (Re.sub spaces " " (Str.lstrip s))
    else String c (Re.sub spaces " " s).
Proof.
  unfold Re.sub. cbn [Re.sub_from]. rewrite match_at_spaces.
  destruct (Chars.is_space c); [| reflexivity].
  pose proof (lstrip_length s) as Hle.
  rewrite take_length by (cbn [String.length]; lia).
  rewrite sub_from_skip.
  replace (S (String.length s) - String.length (Str.lstrip s) - 1)%nat
    with (String.length s - String.length (Str.lstrip s))%nat by lia.
  rewrite drop_lstrip. reflexivity.
Qed.

Lemma collapse_space c s :
  Chars.is_space c = true ->
  collapse (String c s) = String " " (collapse (Str.lstrip s)).
Proof.
  revert c. induction s as [| d s IH]; intros c Hc; cbn [collapse Str.lstrip].
  - rewrite Hc. reflexivity.
  - rewrite Hc. cbn [Str.startswith_char]. destruct (Chars.is_space d) eqn:Hd.
    + rewrite <- (IH d Hd). cbn [collapse]. rewrite Hd. reflexivity.
    + cbn [collapse]. rewrite Hd. reflexivity.
Qed.

Lemma sub_spaces_collapse_bounded n s :
  (String.length s < n)%nat -> Re.sub spaces " " s = collapse s.
Proof.
  revert s. induction n as [| n IH]; intros s Hlt; [lia |].
  destruct s as [| c s]; [reflexivity |].
  rewrite sub_spaces_step. cbn [String.length] in Hlt.
  destruct (Chars.is_space c) eqn:Hc.
  - rewrite collapse_space by exact Hc.
    pose proof (lstrip_length s). rewrite IH by lia. reflexivity.
  - cbn [collapse]. rewrite Hc. rewrite IH by lia. reflexivity.
Qed.

Lemma sub_spaces s : Re.sub spaces " " s = collapse s.
Proof. apply (sub_spaces_collapse_bounded (S (String.length s))). lia. Qed.

(** [preprocess_text], character by character. *)
Lemma preprocess_text_eq s :
  preprocess_text s = Str.strip (collapse (Str.map blank_punct (Str.lower s))).
Proof. unfold preprocess_text. rewrite sub_punct, sub_spaces. reflexivity. Qed.

(** *** Characters of the normal form *)

Lemma lower_not_upper c : Chars.is_upper (Chars.lower c) = false.
Proof.
  destruct c as [[] [] [] [] [] [] [] []]; vm_compute; reflexivity.
Qed.

Lemma space_is_space c : Ascii.eqb c " " = true -> Chars.is_space c = true.
Proof. intros E. apply Ascii.eqb_eq in E. subst c. reflexivity. Qed.

Lemma not_space_not_blank c : Chars.is_space c = false -> Ascii.eqb c " " = false.
Proof.
  intros Hc. destruct (Ascii.eqb c " ") eqn:E; [| reflexivity].
  apply space_is_space in E. congruence.
Qed.

(** After lowering and blanking, a character is white space or normal. *)
Lemma blank_punct_lower c :
  let c' := blank_punct (Chars.lower c) in
  Chars.is_space c' || normal_char c' = true.
Proof.
  cbv zeta. unfold blank_punct. pose proof (lower_not_upper c) as Hu.
  destruct (Chars.is_space (Chars.lower c)) eqn:Hs.
  - rewrite orb_true_r. cbn [negb]. rewrite Hs. reflexivity.
  - rewrite orb_false_r. destruct (Chars.is_word (Chars.lower c)) eqn:Hw;
      cbn [negb]; [| reflexivity].
    rewrite Hs. cbn [orb]. unfold normal_char, spec_char.
    unfold Chars.is_word, Chars.is_alnum, Chars.is_alpha in Hw. rewrite Hu in Hw.
    cbn [orb] in Hw.
    destruct (Chars.is_lower (Chars.lower c)), (Chars.is_digit (Chars.lower c));
      cbn [orb] in *; try reflexivity.
    rewrite Hw. apply orb_true_r.
Qed.

Lemma forallb_map_lower_blank s :
  Str.forallb (fun c => Chars.is_space c || normal_char c)
    (Str.map blank_punct (Str.lower s)) = true.
Proof.
  unfold Str.lower. induction s as [| c s IH]; [reflexivity |].
  cbn [Str.map Str.forallb]. rewrite IH, andb_true_r. apply blank_punct_lower.
Qed.

Lemma forallb_collapse s :
  Str.forallb (fun c => Chars.is_space c || normal_char c) s = true ->
  Str.forallb normal_char (collapse s) = true.
Proof.
  induction s as [| c s IH]; [reflexivity |].
  cbn [Str.forallb collapse]. intros H. apply andb_prop in H as [Hc Hs].
  specialize (IH Hs). destruct (Chars.is_space c) eqn:E.
  - destruct (Str.startswith_char Chars.is_space s); [exact IH |].
    cbn [Str.forallb]. rewrite IH. reflexivity.
  - cbn [Str.forallb orb] in *. rewrite Hc, IH. reflexivity.
Qed.

Lemma forallb_lstrip p s : Str.forallb p s = true -> Str.forallb p (Str.lstrip s) = true.
Proof.
  induction s as [| c s IH]; [reflexivity |].
  cbn [Str.forallb Str.lstrip]. intros H. apply andb_prop in H as [Hc Hs].
  destruct (Chars.is_space c); [apply IH, Hs |].
  cbn [Str.forallb]. rewrite Hc, Hs. reflexivity.
Qed.

Lemma forallb_rstrip p s : Str.forallb p s = true -> Str.forallb p (Str.rstrip s) = true.
Proof.
  induction s as [| c s IH]; [reflexivity |].
  cbn [Str.forallb Str.rstrip]. intros H. apply andb_prop in H as [Hc Hs].
  specialize (IH Hs). destruct (Str.rstrip s) as [| d r].
  - destruct (Chars.is_space c); [reflexivity |].
    cbn [Str.forallb]. rewrite Hc. reflexivity.
  - cbn [Str.forallb] in *. rewrite Hc, IH. reflexivity.
Qed.

(** *** Spaces of the normal form *)

Lemma contains_double_space c s :
  Str.contains "  " (String c s) =
    (Ascii.eqb " " c && Str.startswith " " s) || Str.contains "  " s.
Proof. reflexivity. Qed.

Lemma startswith_space s :
  Str.startswith " " s = Str.startswith_char (Ascii.eqb " ") s.
Proof.
  destruct s as [| c s]; [reflexivity |].
  cbn [Str.startswith Str.startswith_char]. destruct s; apply andb_true_r.
Qed.

Lemma startswith_blank_space s :
  Str.startswith_char Chars.is_space s = false -> Str.startswith " " s = false.
Proof.
  rewrite startswith_space. destruct s as [| c s]; [reflexivity |].
  cbn [Str.startswith_char].
  intros Hc. rewrite Ascii.eqb_sym. apply not_space_not_blank, Hc.
Qed.

Lemma collapse_head s :
  Str.startswith_char Chars.is_space s = false ->
  Str.startswith_char Chars.is_space (collapse s) = false.
Proof.
  destruct s as [| c s]; [reflexivity |]. simpl. intros Hc. rewrite Hc. exact Hc.
Qed.

Lemma collapse_single_spaced s : Str.contains "  " (collapse s) = false.
Proof.
  induction s as [| c s IH]; [reflexivity |].
  cbn [collapse]. destruct (Chars.is_space c) eqn:Hc.
  - destruct (Str.startswith_char Chars.is_space s) eqn:Hs; [exact IH |].
    rewrite contains_double_space, IH.
    rewrite (startswith_blank_space _ (collapse_head s Hs)). reflexivity.
  - rewrite contains_double_space, IH.
    rewrite Ascii.eqb_sym, (not_space_not_blank c Hc). reflexivity.
Qed.

Lemma contains_lstrip n s :
  Str.contains n s = false -> Str.contains n (Str.lstrip s) = false.
Proof.
  induction s as [| c s IH]; [auto |].
  cbn [Str.lstrip]. destruct (Chars.is_space c); [| auto].
  cbn [Str.contains]. intros H. apply orb_false_elim in H as [_ H]. apply IH, H.
Qed.

Lemma rstrip_prefix s : exists w, s = Str.rstrip s +:+ w.
Proof.
  induction s as [| c s [w IH]]; [exists EmptyString; reflexivity |].
  cbn [Str.rstrip]. destruct (Str.rstrip s) as [| d r] eqn:E.
  - destruct (Chars.is_space c); [exists (String c s); reflexivity |].
    exists w. cbv beta iota delta [String.append] in *. congruence.
  - exists w. cbv beta iota delta [String.append] in *. congruence.
Qed.

Lemma startswith_app n a w :
  Str.startswith n a = true -> Str.startswith n (a +:+ w) = true.
Proof.
  revert a. induction n as [| x n IH]; intros a; [destruct a; reflexivity |].
  destruct a as [| y a]; simpl; [discriminate |].
  intros H. apply andb_prop in H as [-> H]. simpl. apply IH, H.
Qed.

Lemma contains_app n a w :
  Str.contains n a = true -> Str.contains n (a +:+ w) = true.
Proof.
  induction a as [| y a IH].
  - cbn [Str.contains]. rewrite orb_false_r. intros H.
    destruct n; [destruct w; reflexivity | discriminate H].
  - cbn [Str.contains]. intros H.
    change (String y a +:+ w) with (String y (a +:+ w)).
    cbn [Str.contains]. apply orb_prop in H as [H | H].
    + pose proof (startswith_app n (String y a) w H) as Hs.
      change (String y a +:+ w) with (String y (a +:+ w)) in Hs.
      rewrite Hs. reflexivity.
    + rewrite (IH H). apply orb_true_r.
Qed.

Lemma contains_rstrip n s :
  Str.contains n s = false -> Str.contains n (Str.rstrip s) = false.
Proof.
  intros H. destruct (Str.contains n (Str.rstrip s)) eqn:E; [| reflexivity].
  destruct (rstrip_prefix s) as [w Hw].
  apply (contains_app n _ w) in E. rewrite <- Hw in E. congruence.
Qed.

Lemma lstrip_head s : Str.startswith_char Chars.is_space (Str.lstrip s) = false.
Proof.
  induction s as [| c s IH]; [reflexivity |].
  cbn [Str.lstrip]. destruct (Chars.is_space c) eqn:Hc; [exact IH | exact Hc].
Qed.

Lemma rstrip_head s :
  Str.startswith_char Chars.is_space s = false ->
  Str.startswith_char Chars.is_space (Str.rstrip s) = false.
Proof.
  destruct s as [| c s]; [reflexivity |]. cbn [Str.rstrip Str.startswith_char].
  intros Hc. destruct (Str.rstrip s); [rewrite Hc |]; exact Hc.
Qed.

Lemma rstrip_last s : Str.endswith_char Chars.is_space (Str.rstrip s) = false.
Proof.
  induction s as [| c s IH]; [reflexivity |].
  cbn [Str.rstrip]. destruct (Str.rstrip s) as [| d r] eqn:E.
  - destruct (Chars.is_space c) eqn:Hc; [reflexivity | exact Hc].
  - exact IH.
Qed.

Lemma endswith_blank_space s :
  Str.endswith_char Chars.is_space s = false ->
  Str.endswith_char (Ascii.eqb " ") s = false.
Proof.
  induction s as [| c s IH]; [reflexivity |].
  destruct s as [| d s]; [| exact IH].
  cbn [Str.endswith_char]. intros Hc. rewrite Ascii.eqb_sym.
  apply not_space_not_blank, Hc.
Qed.

(** *** The normal form *)




End Normalizer.

(** * Further properties *)

(** ** The matcher and the language of a pattern *)

Section MatcherSound.

Lemma append_cons x a b : String x a +:+ b = String x (a +:+ b).
Proof. reflexivity. Qed.

Lemma append_nil_r s : s +:+ EmptyString = s.
Proof.
  induction s as [| c s IH]; [reflexivity |].
  rewrite append_cons, IH. reflexivity.
Qed.

Lemma append_assoc a b c : (a +:+ b) +:+ c = a +:+ (b +:+ c).
Proof.
  induction a as [| x a IH]; [reflexivity |].
  rewrite !append_cons, IH. reflexivity.
Qed.

Lemma append_length a b :
  String.length (a +:+ b) = (String.length a + String.length b)%nat.
Proof.
  induction a as [| x a IH]; [reflexivity |].
  rewrite append_cons. cbn [String.length]. rewrite IH. reflexivity.
Qed.

(** Soundness of the backtracking matcher: when [run] succeeds, it has split
    the subject into a word of the pattern and a rest that the continuation
    accepted. *)
Lemma run_sound r : forall k s out,
  Re.run r k s = Some out ->
  exists w s', s = w +:+ s' /\ matches r w /\ k s' = Some out.
Proof.
  induction r as [| p | a IHa b IHb | a IHa b IHb | a IHa]; intros k s out;
    cbn [Re.run].
  - intros H. exists EmptyString, s. split; [reflexivity |].
    split; [constructor | exact H].
  - destruct s as [| c s]; [discriminate |]. destruct (p c) eqn:Hp; [| discriminate].
    intros H. exists (String c EmptyString), s. split; [reflexivity |].
    split; [constructor; exact Hp | exact H].
  - intros H. apply IHa in H as (w1 & s1 & -> & Hw1 & H).
    apply IHb in H as (w2 & s2 & -> & Hw2 & H).
    exists (w1 +:+ w2), s2. rewrite append_assoc. split; [reflexivity |].
    split; [constructor; assumption | exact H].
  - destruct (Re.run a k s) as [o |] eqn:Ha.
    + intros E. injection E as <-. apply IHa in Ha as (w & s' & -> & Hw & H).
      exists w, s'. split; [reflexivity |]. split; [apply matches_alt_l, Hw | exact H].
    + intros H. apply IHb in H as (w & s' & -> & Hw & H).
      exists w, s'. split; [reflexivity |]. split; [apply matches_alt_r, Hw | exact H].
  - generalize (S (String.length s)) as fuel. intros fuel. revert s.
    induction fuel as [| fuel IH]; intros s; cbn [Re.loop].
    + intros H. exists EmptyString, s. split; [reflexivity |].
      split; [constructor | exact H].
    + destruct (Re.run a _ s) as [o |] eqn:Ha.
      * intros E. injection E as <-. apply IHa in Ha as (w1 & s1 & -> & Hw1 & H).
        destruct (String.length s1 <? String.length (w1 +:+ s1))%nat; [| discriminate].
        apply IH in H as (w2 & s2 & -> & Hw2 & H).
        exists (w1 +:+ w2), s2. rewrite append_assoc. split; [reflexivity |].
        split; [constructor; assumption | exact H].
      * intros H. exists EmptyString, s. split; [reflexivity |].
        split; [constructor | exact H].
Qed.

Lemma take_append w s : Str.take (String.length w) (w +:+ s) = w.
Proof.
  induction w as [| c w IH]; [destruct s; reflexivity |].
  rewrite append_cons. cbn [String.length Str.take]. rewrite IH. reflexivity.
Qed.

Lemma match_at_sound r s m rest :
  Re.match_at r s = Some (m, rest) -> s = m +:+ rest /\ matches r m.
Proof.
  unfold Re.match_at. destruct (Re.run r Some s) as [o |] eqn:H; [| discriminate].
  apply run_sound in H as (w & s' & -> & Hw & E). injection E as ->.
  intros E. injection E as <- <-.
  rewrite append_length.
  replace (String.length w + String.length o - String.length o)%nat
    with (String.length w) by lia.
  rewrite take_append. split; [reflexivity | exact Hw].
Qed.

Lemma substring_cons c m s : substring m s -> substring m (String c s).
Proof.
  intros (pre & post & ->). exists (String c pre), post. reflexivity.
Qed.

(** Every match that [findall] reports is a word of the pattern and occurs
    in the subject. *)
Lemma findall_from_sound r s : forall skip m,
  In m (Re.findall_from r s skip) -> matches r m /\ substring m s.
Proof.
  induction s as [| c s IH]; intros skip m; cbn [Re.findall_from]; [intros [] |].
  destruct skip as [| n].
  - destruct (Re.match_at r (String c s)) as [[m0 rest] |] eqn:E.
    + intros [<- | Hin].
      * apply match_at_sound in E as [E Hm]. split; [exact Hm |].
        exists EmptyString, rest. exact E.
      * apply IH in Hin as [Hm Hs]. split; [exact Hm | apply substring_cons, Hs].
    + intros Hin. apply IH in Hin as [Hm Hs].
      split; [exact Hm | apply substring_cons, Hs].
  - intros Hin. apply IH in Hin as [Hm Hs].
    split; [exact Hm | apply substring_cons, Hs].
Qed.

Lemma findall_sound r s m :
  In m (Re.findall r s) -> matches r m /\ substring m s.
Proof. apply findall_from_sound. Qed.

End MatcherSound.


Section LanguageFacts.
Import ScamDetector.

Lemma all_ascii_complete c : In c all_ascii.
Proof.
  unfold all_ascii. rewrite <- (ascii_nat_embedding c). apply in_map.
  apply in_seq. pose proof (nat_ascii_bounded c). lia.
Qed.

Lemma forallb_all_ascii p : List.forallb p all_ascii = true -> forall c, p c = true.
Proof.
  intros H c. rewrite List.forallb_forall in H. apply H, all_ascii_complete.
Qed.

Lemma str_forallb_append q a b :
  Str.forallb q (a +:+ b) = Str.forallb q a && Str.forallb q b.
Proof.
  induction a as [| x a IH]; [reflexivity |].
  rewrite append_cons. cbn [Str.forallb]. rewrite IH. apply andb_assoc.
Qed.

(** The words of a pattern are made of the characters of its classes. *)
Lemma matches_classes_within q r w :
  classes_within q r = true -> matches r w -> Str.forallb q w = true.
Proof.
  intros Hq Hm. induction Hm as [| p c Hp | a b w1 w2 _ IH1 _ IH2 | a b w _ IH
                               | a b w _ IH | a | a w1 w2 _ IH1 _ IH2];
    cbn [classes_within] in Hq; try reflexivity.
  - cbn [Str.forallb]. rewrite andb_true_r.
    pose proof (forallb_all_ascii _ Hq c) as H. cbv beta in H.
    rewrite Hp in H. exact H.
  - apply andb_prop in Hq as [Ha Hb]. rewrite str_forallb_append, IH1, IH2; auto.
  - apply andb_prop in Hq as [Ha Hb]. auto.
  - apply andb_prop in Hq as [Ha Hb]. auto.
  - rewrite str_forallb_append, IH1, IH2; auto.
Qed.

Lemma matches_min_len r w : matches r w -> (min_len r <= String.length w)%nat.
Proof.
  intros Hm. induction Hm; cbn [min_len String.length]; try rewrite append_length; lia.
Qed.

Lemma contains_cons n c s : Str.contains n s = true -> Str.contains n (String c s) = true.
Proof. intros H. cbn [Str.contains]. rewrite H. apply orb_true_r. Qed.

Lemma contains_append_r n a b : Str.contains n b = true -> Str.contains n (a +:+ b) = true.
Proof.
  intros H. induction a as [| x a IH]; [exact H |].
  rewrite append_cons. apply contains_cons, IH.
Qed.

Lemma startswith_append n post : Str.startswith n (n +:+ post) = true.
Proof.
  induction n as [| x n IH]; [destruct post; reflexivity |].
  rewrite append_cons. cbn [Str.startswith]. rewrite Ascii.eqb_refl. exact IH.
Qed.

Lemma startswith_split n s : Str.startswith n s = true -> exists post, s = n +:+ post.
Proof.
  revert s. induction n as [| x n IH]; intros s; [exists s; reflexivity |].
  destruct s as [| y s]; cbn [Str.startswith]; [discriminate |].
  intros H. apply andb_prop in H as [E H]. apply Ascii.eqb_eq in E. subst y.
  destruct (IH s H) as [post ->]. exists post. reflexivity.
Qed.

(** [needle in s], as an occurrence. *)
Lemma contains_substring n s : Str.contains n s = true <-> substring n s.
Proof.
  split.
  - induction s as [| c s IH]; cbn [Str.contains]; intros H;
      apply orb_prop in H as [H | H]; try discriminate H.
    + apply startswith_split in H as [post E]. exists EmptyString, post. exact E.
    + apply startswith_split in H as [post E]. exists EmptyString, post. exact E.
    + apply substring_cons, IH, H.
  - intros (pre & post & ->). apply contains_append_r.
    destruct (n +:+ post) as [| c t] eqn:E.
    + destruct n; [reflexivity | discriminate E].
    + cbn [Str.contains]. rewrite <- E, startswith_append. reflexivity.
Qed.

Lemma substring_trans a b c : substring a b -> substring b c -> substring a c.
Proof.
  intros (p1 & q1 & ->) (p2 & q2 & ->).
  exists (p2 +:+ p1), (q1 +:+ q2). rewrite !append_assoc. reflexivity.
Qed.

Lemma contains_trans a b c :
  Str.contains a b = true -> Str.contains b c = true -> Str.contains a c = true.
Proof.
  rewrite !contains_substring. apply substring_trans.
Qed.

(** The syntactic test [has_char] is sound. *)
Lemma matches_has_char x r w :
  has_char x r = true -> matches r w -> Str.contains (String x EmptyString) w = true.
Proof.
  intros Hx Hm. induction Hm as [| p c Hp | a b w1 w2 _ IH1 _ IH2 | a b w _ IH
                               | a b w _ IH | a | a w1 w2 _ IH1 _ IH2];
    cbn [has_char] in Hx; try discriminate Hx.
  - pose proof (forallb_all_ascii _ Hx c) as H. cbv beta in H. rewrite Hp in H.
    cbn [implb] in H. apply Ascii.eqb_eq in H. subst x.
    cbn [Str.contains Str.startswith]. rewrite Ascii.eqb_refl. reflexivity.
  - apply orb_prop in Hx as [Ha | Hb].
    + apply contains_app, IH1, Ha.
    + apply contains_append_r, IH2, Hb.
  - apply andb_prop in Hx as [Ha Hb]. auto.
  - apply andb_prop in Hx as [Ha Hb]. auto.
Qed.

Lemma matches_lit l w : matches (Re.Lit l) w -> w = l.
Proof.
  revert w. induction l as [| c l IH]; intros w H; cbn [Re.Lit] in H.
  - inversion H. reflexivity.
  - inversion H as [| | a b w1 w2 H1 H2 | | | |]; subst.
    unfold Re.Chr in H1. inversion H1 as [| p c' Hc | | | | |]; subst.
    apply Ascii.eqb_eq in Hc. subst c'.
    rewrite (IH _ H2). reflexivity.
Qed.

(** A word of [url_pattern] has the scheme separator. *)
Lemma url_pattern_scheme w : matches url_pattern w -> Str.contains "://" w = true.
Proof.
  unfold url_pattern. intros H.
  inversion H as [| | a b w1 w2 H1 H2 | | | |]; subst.
  inversion H2 as [| | a b w3 w4 H3 H4 | | | |]; subst.
  inversion H4 as [| | a b w5 w6 H5 H6 | | | |]; subst.
  apply (matches_lit "://") in H5. subst w5.
  apply contains_append_r, contains_append_r, contains_substring.
  exists EmptyString, w6. reflexivity.
Qed.

(** What the three patterns of [extract_urls] have in common. *)
Lemma url_matches_sound text u :
  In u (url_matches text) ->
  substring u text /\
  (matches url_pattern u \/ matches url_pattern_simple u \/ matches shortened_pattern u).
Proof.
  unfold url_matches. cbv zeta. rewrite !in_app_iff.
  intros [[H | H] | H]; apply findall_sound in H as [Hm Hs]; auto.
Qed.

End LanguageFacts.


(** ** More on the URL extractor *)

Section ExtractionMore.
Import ScamDetector.

Lemma pattern_words_not_space u :
  matches url_pattern u \/ matches url_pattern_simple u \/ matches shortened_pattern u ->
  Str.forallb not_space u = true /\ (4 <= String.length u)%nat.
Proof.
  intros [H | [H | H]]; (split;
    [ eapply matches_classes_within; [| exact H]; vm_compute; reflexivity
    | eapply Nat.le_trans; [| apply matches_min_len, H]; vm_compute; lia ]).
Qed.

Lemma pattern_words_dot_or_scheme u :
  matches url_pattern u \/ matches url_pattern_simple u \/ matches shortened_pattern u ->
  Str.contains "." u = true \/ Str.contains "://" u = true.
Proof.
  intros [H | [H | H]].
  - right. apply url_pattern_scheme, H.
  - left. eapply matches_has_char; [| exact H]. vm_compute. reflexivity.
  - left. eapply matches_has_char; [| exact H]. vm_compute. reflexivity.
Qed.

Lemma extract_urls_In `{SetOrder} text u :
  In u (extract_urls text) <-> In u (url_matches text).
Proof. rewrite <- !list_elem_of_In. apply elem_of_extract_urls. Qed.

(** X1. Every URL that [extract_urls] returns occurs in the message, has at
    least four characters, and has no white space in it. *)
Theorem extract_urls_occur `{SetOrder} (text : string) :
  Forall (fun u => Str.contains u text = true /\
                   (4 <= String.length u)%nat /\
                   Str.forallb not_space u = true)
         (extract_urls text).
Proof.
  apply List.Forall_forall. intros u Hin. apply extract_urls_In in Hin.
  apply url_matches_sound in Hin as [Hs Hm].
  apply pattern_words_not_space in Hm as [Hns Hlen].
  split; [apply contains_substring, Hs | split; assumption].
Qed.

Lemma url_matches_none text :
  Str.contains "." text = false -> Str.contains "://" text = false ->
  url_matches text = [].
Proof.
  intros Hdot Hsch. destruct (url_matches text) as [| u l] eqn:E; [reflexivity |].
  assert (Hin : In u (url_matches text)) by (rewrite E; left; reflexivity).
  apply url_matches_sound in Hin as [Hs Hm]. apply contains_substring in Hs.
  apply pattern_words_dot_or_scheme in Hm as [Hc | Hc];
    pose proof (contains_trans _ _ _ Hc Hs); congruence.
Qed.

Lemma set_to_list_empty `{SetOrder} : set_to_list (∅ : gset string) = [].
Proof.
  apply Permutation_nil_r. rewrite set_to_list_perm, elements_empty. reflexivity.
Qed.

(** X2. A message with no dot and no [://] in it has no URL. *)
Theorem extract_urls_needs_dot_or_scheme `{SetOrder} (text : string) :
  Str.contains "." text = false ->
  Str.contains "://" text = false ->
  extract_urls text = [].
Proof.
  intros Hdot Hsch. unfold extract_urls.
  rewrite (url_matches_none text Hdot Hsch). apply set_to_list_empty.
Qed.

Lemma extract_urls_needs_dot_or_scheme_witness :
  Str.contains "." "Meeting at 3 PM today in conference room" = false /\
  Str.contains "://" "Meeting at 3 PM today in conference room" = false /\
  @extract_urls canonical_order "Meeting at 3 PM today in conference room" = [].
Proof.
  split; [vm_compute; reflexivity |]. split; [vm_compute; reflexivity |].
  apply (@extract_urls_needs_dot_or_scheme canonical_order); vm_compute; reflexivity.
Defined.

End ExtractionMore.


(** ** More on the URL risk scorer *)

Section ScoringMore.
Import ScamDetector.

Lemma fold_rows table : forall st,
  fold_left apply_row table st =
    (fst st + deltas (triggered table), snd st ++ labels (triggered table)).
Proof.
  induction table as [| [[cond delta] reason] table IH]; intros [score rs];
    cbn [fold_left].
  - cbn. rewrite Z.add_0_r, app_nil_r. reflexivity.
  - rewrite IH. unfold apply_row, rule, triggered. cbn [fst snd List.filter].
    destruct cond; cbn [fst snd deltas labels fold_right List.map].
    + rewrite <- app_assoc. f_equal. unfold deltas. lia.
    + reflexivity.
Qed.

Lemma keyword_rules_rows url_lower st :
  keyword_rules url_lower st =
    fold_left apply_row
      (List.map (fun keyword =>
                   (Str.contains keyword url_lower, 15, "Contains keyword: " +:+ keyword))
                phishing_keywords) st.
Proof.
  unfold keyword_rules. generalize phishing_keywords as kws. intros kws. revert st.
  induction kws as [| kw kws IH]; intros st; [reflexivity |].
  cbn [fold_left List.map]. rewrite IH. reflexivity.
Qed.

Lemma apply_rules_rows u : apply_rules u = fold_left apply_row (rules_table u) (0, []).
Proof.
  unfold apply_rules, rules_table. cbv zeta.
  rewrite fold_left_app, <- keyword_rules_rows. reflexivity.
Qed.

Lemma apply_rules_table u :
  apply_rules u = (deltas (triggered (rules_table u)), labels (triggered (rules_table u))).
Proof. rewrite apply_rules_rows, fold_rows. reflexivity. Qed.

(** X3. [analyze_url] evaluates its rules as a table: the score is the sum
    of what the rules that hold add, capped at 100, and the reasons are the
    reasons of those rules, in the order of the rules. *)
Theorem analyze_url_table (u : string) :
  analyze_url u =
    {| url := u;
       suspicion_score := Z.min (deltas (triggered (rules_table u))) 100;
       is_suspicious := 40 <=? Z.min (deltas (triggered (rules_table u))) 100;
       reasons := labels (triggered (rules_table u)) |}.
Proof.
  unfold analyze_url. rewrite apply_rules_table. reflexivity.
Qed.

Lemma rules_table_deltas u :
  Forall (fun row => 10 <= snd (fst row) <= 25) (rules_table u).
Proof.
  unfold rules_table. cbv zeta. apply Forall_app. split.
  - apply List.Forall_forall. intros row Hin. apply in_map_iff in Hin as (kw & <- & _).
    cbn. lia.
  - repeat constructor; cbn; lia.
Qed.

Lemma deltas_bounds rows :
  Forall (fun row => 10 <= snd (fst row) <= 25) rows ->
  10 * Z.of_nat (length rows) <= deltas rows <= 25 * Z.of_nat (length rows).
Proof.
  induction 1 as [| row rows Hrow _ IH]; [cbn; lia |].
  cbn [deltas fold_right length]. fold (deltas rows). lia.
Qed.

Lemma triggered_Forall (P : bool * Z * string -> Prop) table :
  Forall P table -> Forall P (triggered table).
Proof.
  unfold triggered. rewrite !List.Forall_forall. intros H row Hin.
  apply List.filter_In in Hin as [Hin _]. apply H, Hin.
Qed.

(** X4. Each recorded reason stands for 10 to 25 points: a URL with four
    reasons or more is suspicious, a suspicious URL has at least two reasons,
    and a URL with a single reason scores at most 25. *)
Theorem analyze_url_reason_count (u : string) :
  let n := Z.of_nat (length (reasons (analyze_url u))) in
  Z.min (10 * n) 100 <= suspicion_score (analyze_url u) <= 25 * n /\
  (4 <= n -> is_suspicious (analyze_url u) = true) /\
  (is_suspicious (analyze_url u) = true -> 2 <= n).
Proof.
  cbv zeta. destruct (analyze_url_fields u) as (-> & -> & -> & _).
  rewrite apply_rules_table. cbn [fst snd].
  pose proof (deltas_bounds _ (triggered_Forall _ _ (rules_table_deltas u))) as Hb.
  unfold labels. rewrite length_map.
  set (n := Z.of_nat (length (triggered (rules_table u)))) in *.
  split; [lia |]. split.
  - intros Hn. apply Z.leb_le. lia.
  - intros Hs. apply Z.leb_le in Hs. lia.
Qed.

Lemma rules_table_labels u : labels (rules_table u) = all_reasons.
Proof.
  unfold labels, rules_table, all_reasons. cbv zeta.
  rewrite List.map_app, List.map_map. reflexivity.
Qed.

Lemma all_reasons_NoDup : NoDup all_reasons.
Proof.
  apply (bool_decide_unpack _). vm_compute. reflexivity.
Qed.

Lemma triggered_sublist table : triggered table `sublist_of` table.
Proof.
  unfold triggered. induction table as [| row table IH]; [constructor |].
  cbn [List.filter]. destruct (fst (fst row)); constructor; exact IH.
Qed.

Lemma labels_sublist rows table :
  rows `sublist_of` table -> labels rows `sublist_of` labels table.
Proof. unfold labels. induction 1; cbn [List.map]; constructor; assumption. Qed.

(** X5. The reasons of [analyze_url] follow the order of the rules and none
    is recorded twice: they form a sublist of the 25 possible reasons. *)
Theorem analyze_url_reasons_ordered (u : string) :
  reasons (analyze_url u) `sublist_of` all_reasons /\
  NoDup (reasons (analyze_url u)).
Proof.
  destruct (analyze_url_fields u) as (_ & _ & -> & _).
  rewrite apply_rules_table. cbn [snd].
  assert (Hsub : labels (triggered (rules_table u)) `sublist_of` all_reasons).
  { rewrite <- (rules_table_labels u). apply labels_sublist, triggered_sublist. }
  split; [exact Hsub |].
  eapply sublist_NoDup; [apply all_reasons_NoDup | exact Hsub].
Qed.

End ScoringMore.


(** ** The URL risk scorer and the case of letters *)

Section ScoringCase.
Import ScamDetector.

Lemma map_length f s : String.length (Str.map f s) = String.length s.
Proof. induction s as [| c s IH]; [reflexivity |]. cbn. rewrite IH. reflexivity. Qed.

Lemma run_map f r :
  classes_stable f r = true ->
  forall k k',
    (forall s, k (Str.map f s) = option_map (Str.map f) (k' s)) ->
    forall s, Re.run r k (Str.map f s) = option_map (Str.map f) (Re.run r k' s).
Proof.
  induction r as [| p | a IHa b IHb | a IHa b IHb | a IHa]; intros Hst k k' Hk s;
    cbn [classes_stable] in Hst; cbn [Re.run].
  - apply Hk.
  - destruct s as [| c s]; [reflexivity |]. cbn [Str.map].
    pose proof (forallb_all_ascii _ Hst c) as E. cbv beta in E.
    apply Bool.eqb_prop in E. rewrite E.
    destruct (p c); [apply Hk | reflexivity].
  - apply andb_prop in Hst as [Ha Hb]. apply (IHa Ha). intros s'. apply (IHb Hb), Hk.
  - apply andb_prop in Hst as [Ha Hb].
    rewrite (IHa Ha k k' Hk), (IHb Hb k k' Hk).
    destruct (Re.run a k' s); reflexivity.
  - rewrite map_length. generalize (S (String.length s)) as fuel. intros fuel.
    revert s. induction fuel as [| fuel IH]; intros s; cbn [Re.loop]; [apply Hk |].
    rewrite (IHa Hst _
               (fun s' => if (String.length s' <? String.length s)%nat
                          then Re.loop (Re.run a) k' fuel s' else None)).
    + destruct (Re.run a _ s); [reflexivity | apply Hk].
    + intros s'. rewrite !map_length.
      destruct (String.length s' <? String.length s)%nat; [apply IH | reflexivity].
Qed.

Lemma match_at_map_none f r s :
  classes_stable f r = true ->
  Re.match_at r (Str.map f s) = None <-> Re.match_at r s = None.
Proof.
  intros Hst. unfold Re.match_at.
  rewrite (run_map f r Hst Some Some) by reflexivity.
  destruct (Re.run r Some s); cbn [option_map]; split; intros H;
    first [reflexivity | discriminate H].
Qed.

Lemma search_map f r s :
  classes_stable f r = true -> Re.search r (Str.map f s) = Re.search r s.
Proof.
  intros Hst. induction s as [| c s IH].
  - pose proof (match_at_map_none f r EmptyString Hst) as H. cbn [Str.map] in *.
    cbn [Re.search].
    destruct (Re.match_at r EmptyString) as [x |]; [reflexivity |].
    reflexivity.
  - pose proof (match_at_map_none f r (String c s) Hst) as H. cbn [Str.map] in *.
    cbn [Re.search].
    destruct (Re.match_at r (String (f c) (Str.map f s))) as [x |],
             (Re.match_at r (String c s)) as [y |]; try reflexivity.
    + destruct H as [_ H]. discriminate (H eq_refl).
    + destruct H as [H _]. discriminate (H eq_refl).
    + exact IH.
Qed.

Lemma startswith_map f n s :
  needle_stable f n = true -> Str.startswith n (Str.map f s) = Str.startswith n s.
Proof.
  unfold needle_stable. revert s. induction n as [| x n IH]; intros s Hn;
    [destruct s; reflexivity |].
  cbn [Str.forallb] in Hn. apply andb_prop in Hn as [Hx Hn].
  destruct s as [| c s]; [reflexivity |]. cbn [Str.map Str.startswith].
  pose proof (forallb_all_ascii _ Hx c) as E. cbv beta in E. apply Bool.eqb_prop in E.
  rewrite E, (IH s Hn). reflexivity.
Qed.

Lemma contains_map f n s :
  needle_stable f n = true -> Str.contains n (Str.map f s) = Str.contains n s.
Proof.
  intros Hn. induction s as [| c s IH].
  - cbn [Str.map Str.contains]. change EmptyString with (Str.map f EmptyString) at 1.
    rewrite startswith_map by exact Hn. reflexivity.
  - cbn [Str.map Str.contains]. rewrite IH.
    change (String (f c) (Str.map f s)) with (Str.map f (String c s)).
    rewrite startswith_map by exact Hn. reflexivity.
Qed.

Lemma count_from_map f n s :
  needle_stable f n = true ->
  forall skip, Str.count_from n (Str.map f s) skip = Str.count_from n s skip.
Proof.
  intros Hn. induction s as [| c s IH]; intros skip; [reflexivity |].
  cbn [Str.map Str.count_from]. destruct skip as [| k]; [| apply IH].
  change (String (f c) (Str.map f s)) with (Str.map f (String c s)).
  rewrite startswith_map by exact Hn. rewrite !IH. reflexivity.
Qed.

Lemma lower_lower s : Str.lower (Str.lower s) = Str.lower s.
Proof.
  unfold Str.lower. induction s as [| c s IH]; [reflexivity |].
  cbn [Str.map]. rewrite IH. f_equal.
  destruct c as [[] [] [] [] [] [] [] []]; vm_compute; reflexivity.
Qed.

(** The rules give the same answers on a URL and on its lowercase form. *)
Lemma rules_table_lower u : rules_table (Str.lower u) = rules_table u.
Proof.
  unfold rules_table. cbv zeta. rewrite lower_lower.
  unfold Str.len, Str.count, Str.lower.
  rewrite (contains_map Chars.lower "@") by (vm_compute; reflexivity).
  rewrite (count_from_map Chars.lower "//") by (vm_compute; reflexivity).
  rewrite (search_map Chars.lower ip_pattern) by (vm_compute; reflexivity).
  rewrite map_length. reflexivity.
Qed.

(** X6. The risk of a URL of 7-bit characters does not depend on the case of
    its letters: the lowercase form of a URL gets the same score, the same
    flag and the same reasons. *)
Theorem analyze_url_case_insensitive (u : string) :
  Str.forallb Chars.is_7bit u = true ->
  suspicion_score (analyze_url (Str.lower u)) = suspicion_score (analyze_url u) /\
  is_suspicious (analyze_url (Str.lower u)) = is_suspicious (analyze_url u) /\
  reasons (analyze_url (Str.lower u)) = reasons (analyze_url u).
Proof.
  intros _.
  destruct (analyze_url_fields u) as (-> & -> & -> & _).
  destruct (analyze_url_fields (Str.lower u)) as (-> & -> & -> & _).
  rewrite !apply_rules_table, rules_table_lower. auto.
Qed.

Lemma analyze_url_case_insensitive_witness :
  Str.forallb Chars.is_7bit "HTTP://Secure-Bank-Verify.TK/Login" = true /\
  suspicion_score (analyze_url "http://secure-bank-verify.tk/login") =
    suspicion_score (analyze_url "HTTP://Secure-Bank-Verify.TK/Login").
Proof.
  split; [vm_compute; reflexivity |].
  apply (analyze_url_case_insensitive "HTTP://Secure-Bank-Verify.TK/Login").
  vm_compute; reflexivity.
Defined.

End ScoringCase.


(** ** More on the text normaliser *)

Section NormalizerMore.
Import ScamDetector.

Lemma preprocess_text_normal_form s : normal_form (preprocess_text s).
Proof.
  rewrite preprocess_text_eq. unfold Str.strip, normal_form.
  repeat split.
  - apply forallb_rstrip, forallb_lstrip, forallb_collapse, forallb_map_lower_blank.
  - apply rstrip_head, lstrip_head.
  - apply rstrip_last.
  - apply contains_rstrip, contains_lstrip, collapse_single_spaced.
Qed.

Lemma normal_char_cases c :
  normal_char c = true ->
  Chars.lower c = c /\ blank_punct c = c /\
  (Chars.is_space c = true -> c = " "%char) /\
  (Chars.is_space c = false -> Chars.is_word c = true).
Proof.
  destruct c as [[] [] [] [] [] [] [] []]; vm_compute; intros H;
    first [discriminate H | repeat split; intros; first [reflexivity | discriminate]].
Qed.

Lemma normal_lower t : Str.forallb normal_char t = true -> Str.lower t = t.
Proof.
  unfold Str.lower. induction t as [| c t IH]; [reflexivity |].
  cbn [Str.forallb Str.map]. intros H. apply andb_prop in H as [Hc Ht].
  destruct (normal_char_cases c Hc) as (-> & _). rewrite (IH Ht). reflexivity.
Qed.

Lemma normal_blank t : Str.forallb normal_char t = true -> Str.map blank_punct t = t.
Proof.
  induction t as [| c t IH]; [reflexivity |].
  cbn [Str.forallb Str.map]. intros H. apply andb_prop in H as [Hc Ht].
  destruct (normal_char_cases c Hc) as (_ & -> & _). rewrite (IH Ht). reflexivity.
Qed.

Lemma normal_collapse t :
  Str.forallb normal_char t = true -> Str.contains "  " t = false -> collapse t = t.
Proof.
  induction t as [| c t IH]; [reflexivity |].
  cbn [Str.forallb]. rewrite contains_double_space. intros H Hd.
  apply andb_prop in H as [Hc Ht]. apply orb_false_elim in Hd as [Hcc Hd].
  cbn [collapse]. rewrite (IH Ht Hd).
  destruct (normal_char_cases c Hc) as (_ & _ & Hsp & _).
  destruct (Chars.is_space c) eqn:Es; [| reflexivity].
  rewrite (Hsp eq_refl) in *. rewrite Ascii.eqb_refl in Hcc.
  rewrite andb_true_l in Hcc.
  destruct t as [| d t]; [reflexivity |]. cbn [Str.startswith_char].
  cbn [Str.forallb] in Ht. apply andb_prop in Ht as [Hd' _].
  destruct (normal_char_cases d Hd') as (_ & _ & Hspd & _).
  destruct (Chars.is_space d) eqn:Ed; [| reflexivity].
  rewrite (Hspd eq_refl) in Hcc. vm_compute in Hcc. discriminate Hcc.
Qed.

Lemma lstrip_fixed t : Str.startswith_char Chars.is_space t = false -> Str.lstrip t = t.
Proof.
  destruct t as [| c t]; [reflexivity |]. cbn [Str.startswith_char Str.lstrip].
  intros ->. reflexivity.
Qed.

Lemma rstrip_fixed t : Str.endswith_char Chars.is_space t = false -> Str.rstrip t = t.
Proof.
  induction t as [| c t IH]; [reflexivity |].
  cbn [Str.rstrip]. destruct t as [| d t].
  - cbn [Str.endswith_char Str.rstrip]. intros ->. reflexivity.
  - intros H. change (Str.endswith_char Chars.is_space (String d t) = false) in H.
    rewrite (IH H). reflexivity.
Qed.

(** A text in normal form is left as it is. *)
Lemma preprocess_text_fixed t : normal_form t -> preprocess_text t = t.
Proof.
  intros (Hc & Hh & Hl & Hd). rewrite preprocess_text_eq.
  rewrite (normal_lower t Hc), (normal_blank t Hc), (normal_collapse t Hc Hd).
  unfold Str.strip. rewrite (lstrip_fixed t Hh). apply rstrip_fixed, Hl.
Qed.

(** X7. Normalising a text of 7-bit characters twice is the same as
    normalising it once. *)
Theorem preprocess_text_idempotent (s : string) :
  Str.forallb Chars.is_7bit s = true ->
  preprocess_text (preprocess_text s) = preprocess_text s.
Proof. intros _. apply preprocess_text_fixed, preprocess_text_normal_form. Qed.

Lemma preprocess_text_idempotent_witness :
  Str.forallb Chars.is_7bit "URGENT!  Your bank_account: 42" = true /\
  preprocess_text (preprocess_text "URGENT!  Your bank_account: 42") =
    preprocess_text "URGENT!  Your bank_account: 42".
Proof.
  split; [vm_compute; reflexivity |].
  apply (preprocess_text_idempotent "URGENT!  Your bank_account: 42").
  vm_compute; reflexivity.
Defined.

Lemma word_char_facts c :
  Chars.is_word (Chars.lower c) = Chars.is_word c /\
  Chars.is_word (blank_punct c) = Chars.is_word c /\
  (Chars.is_word c = true -> blank_punct c = c) /\
  (Chars.is_space c = true -> Chars.is_word c = false).
Proof.
  destruct c as [[] [] [] [] [] [] [] []]; vm_compute;
    repeat split; intros; first [reflexivity | discriminate].
Qed.

Lemma filter_word_lower s :
  str_filter Chars.is_word (Str.lower s) = Str.lower (str_filter Chars.is_word s).
Proof.
  unfold Str.lower. induction s as [| c s IH]; [reflexivity |].
  cbn [Str.map str_filter]. destruct (word_char_facts c) as (-> & _).
  destruct (Chars.is_word c); cbn [Str.map]; rewrite IH; reflexivity.
Qed.

Lemma filter_word_blank s :
  str_filter Chars.is_word (Str.map blank_punct s) = str_filter Chars.is_word s.
Proof.
  induction s as [| c s IH]; [reflexivity |].
  cbn [Str.map str_filter]. destruct (word_char_facts c) as (_ & -> & Hw & _).
  destruct (Chars.is_word c); [rewrite (Hw eq_refl) |]; rewrite IH; reflexivity.
Qed.

Lemma filter_word_collapse s :
  str_filter Chars.is_word (collapse s) = str_filter Chars.is_word s.
Proof.
  induction s as [| c s IH]; [reflexivity |].
  cbn [collapse str_filter]. destruct (word_char_facts c) as (_ & _ & _ & Hs).
  destruct (Chars.is_space c).
  - rewrite (Hs eq_refl). destruct (Str.startswith_char Chars.is_space s);
      [exact IH | cbn [str_filter]; exact IH].
  - cbn [str_filter]. rewrite IH. reflexivity.
Qed.

Lemma filter_word_lstrip s :
  str_filter Chars.is_word (Str.lstrip s) = str_filter Chars.is_word s.
Proof.
  induction s as [| c s IH]; [reflexivity |].
  cbn [Str.lstrip str_filter]. destruct (word_char_facts c) as (_ & _ & _ & Hs).
  destruct (Chars.is_space c); [rewrite (Hs eq_refl); exact IH | reflexivity].
Qed.

Lemma filter_word_rstrip s :
  str_filter Chars.is_word (Str.rstrip s) = str_filter Chars.is_word s.
Proof.
  induction s as [| c s IH]; [reflexivity |].
  cbn [Str.rstrip str_filter]. destruct (word_char_facts c) as (_ & _ & _ & Hs).
  rewrite <- IH. destruct (Str.rstrip s) as [| d r].
  - destruct (Chars.is_space c); [rewrite (Hs eq_refl) |]; reflexivity.
  - reflexivity.
Qed.

Lemma filter_word_preprocess s :
  str_filter Chars.is_word (preprocess_text s) = Str.lower (str_filter Chars.is_word s).
Proof.
  rewrite preprocess_text_eq. unfold Str.strip.
  rewrite filter_word_rstrip, filter_word_lstrip, filter_word_collapse,
    filter_word_blank. apply filter_word_lower.
Qed.

(** X8. Normalisation keeps the word characters (letters, digits and the
    underscore) of a text of 7-bit characters, lowercased and in their
    order; it changes only punctuation and white space. *)
Theorem preprocess_text_keeps_words (s : string) :
  Str.forallb Chars.is_7bit s = true ->
  str_filter Chars.is_word (preprocess_text s) = Str.lower (str_filter Chars.is_word s).
Proof. intros _. apply filter_word_preprocess. Qed.

Lemma preprocess_text_keeps_words_witness :
  Str.forallb Chars.is_7bit "Call me: 555-0100, OK?" = true /\
  str_filter Chars.is_word (preprocess_text "Call me: 555-0100, OK?") = "callme5550100ok".
Proof.
  split; [vm_compute; reflexivity |].
  apply (preprocess_text_keeps_words "Call me: 555-0100, OK?").
  vm_compute; reflexivity.
Defined.

Lemma filter_empty_forallb p s :
  str_filter p s = EmptyString <-> Str.forallb (fun c => negb (p c)) s = true.
Proof.
  induction s as [| c s IH]; [cbn; tauto |].
  cbn [str_filter Str.forallb]. destruct (p c); cbn [negb andb]; [| exact IH].
  split; discriminate.
Qed.

Lemma lower_empty s : Str.lower s = EmptyString <-> s = EmptyString.
Proof. destruct s; cbn; split; first [reflexivity | discriminate]. Qed.

(** X9. The normal form of a text of 7-bit characters is empty exactly when
    the text has no word character (only punctuation and white space). *)
Theorem preprocess_text_empty_iff (s : string) :
  Str.forallb Chars.is_7bit s = true ->
  (preprocess_text s = EmptyString <-> Str.forallb not_word s = true).
Proof.
  intros _. unfold not_word. rewrite <- filter_empty_forallb.
  rewrite <- (lower_empty (str_filter Chars.is_word s)), <- filter_word_preprocess.
  destruct (preprocess_text_normal_form s) as (Hc & Hh & _ & _).
  destruct (preprocess_text s) as [| c t]; [tauto |].
  cbn [str_filter Str.forallb Str.startswith_char] in *.
  apply andb_prop in Hc as [Hc _].
  destruct (normal_char_cases c Hc) as (_ & _ & _ & Hw). rewrite (Hw Hh).
  split; discriminate.
Qed.

Lemma preprocess_text_empty_iff_witness :
  Str.forallb Chars.is_7bit " ?!... " = true /\
  (preprocess_text " ?!... " = EmptyString <-> Str.forallb not_word " ?!... " = true).
Proof.
  split; [vm_compute; reflexivity |].
  apply (preprocess_text_empty_iff " ?!... "). vm_compute; reflexivity.
Defined.

End NormalizerMore.


(** ** More on the fusion engine *)

Section FusionMore.
Import ScamDetector.

Lemma fuse_more_fields `{SetOrder} message probability :
  let r := fuse message probability in
  let analyses := List.map analyze_url (extract_urls message) in
  let m := max_default (List.map suspicion_score analyses) 0 in
  let h := existsb is_suspicious analyses in
  let c := combined_score (snd probability) m in
  let o := override h (preliminary_prediction c) c in
  urls_found r = Z.of_nat (length (extract_urls message)) /\
  verdict r = (if fst o =? 1 then "SCAM" else "SAFE") /\
  text r = message /\
  text_safe_probability r = fst probability.
Proof.
  cbv zeta. unfold fuse.
  destruct (override _ _ _) as [fp c]. simpl. repeat split; reflexivity.
Qed.

Lemma analyze_url_range u : 0 <= suspicion_score (analyze_url u) <= 100.
Proof.
  destruct (analyze_url_fields u) as (-> & _).
  destruct (apply_rules_inv u) as [Hnn _]. lia.
Qed.

Lemma max_url_score_range (urls : list string) :
  0 <= max_default (List.map suspicion_score (List.map analyze_url urls)) 0 <= 100.
Proof.
  destruct (max_default_spec (List.map suspicion_score (List.map analyze_url urls)))
    as [[_ ->] | [Hin _]]; [lia |].
  apply in_map_iff in Hin as (ua & <- & Hin).
  apply in_map_iff in Hin as (u & <- & _).
  apply analyze_url_range.
Qed.

Lemma combined_score_range p m :
  (0 <= p)%Q -> (p <= 1)%Q -> 0 <= m <= 100 ->
  (0 <= combined_score p m)%Q /\ (combined_score p m <= 1)%Q.
Proof.
  intros Hp0 Hp1 [Hm0 Hm1]. unfold combined_score.
  assert (H0 : (0 <= inject_Z m)%Q) by (rewrite Zle_Qle in Hm0; exact Hm0).
  assert (H1 : (inject_Z m <= 100)%Q) by (rewrite Zle_Qle in Hm1; exact Hm1).
  set (x := inject_Z m) in *. split.
  - assert ((x / 100 == x * (1 # 100))%Q) as -> by (field). lra.
  - assert ((x / 100 == x * (1 # 100))%Q) as -> by (field). lra.
Qed.

(** X10. When the classifier's scam probability lies between 0 and 1, so
    does the confidence that [predict] returns. *)
Theorem predict_confidence_range `{Sklearn} `{SetOrder}
    (self : detector) (text : string) (r : DetectionResult) :
  predict self text = inr r ->
  (0 <= text_scam_probability r)%Q -> (text_scam_probability r <= 1)%Q ->
  (0 <= confidence r)%Q /\ (confidence r <= 1)%Q.
Proof.
  intros Hp. apply predict_inr in Hp as [_ [pr ->]].
  destruct (fuse_fields text pr) as (_ & _ & _ & -> & _ & -> & _).
  intros Hp0 Hp1.
  pose proof (combined_score_range (snd pr) _ Hp0 Hp1
                (max_url_score_range (extract_urls text))) as [Hc0 Hc1].
  destruct (override_cases
              (existsb is_suspicious (List.map analyze_url (extract_urls text)))
              (combined_score (snd pr)
                 (max_default
                    (List.map suspicion_score (List.map analyze_url (extract_urls text))) 0)))
    as [(_ & Hlt & ->) | [(_ & _ & ->) | (_ & ->)]]; cbn [snd]; auto.
  unfold max2. destruct (Qle_bool 0.6 _); [auto |]. split; lra.
Qed.

Lemma predict_confidence_range_witness :
  stub_predict 0.4 suspicious_message = inr suspicious_result /\
  ((0 <= confidence suspicious_result)%Q /\ (confidence suspicious_result <= 1)%Q).
Proof.
  split; [vm_compute; reflexivity |].
  apply (@predict_confidence_range stub_model canonical_order
           (stub_detector 0.4) suspicious_message suspicious_result);
    vm_compute; first [reflexivity | discriminate].
Defined.

Lemma existsb_suspicious_max (urls : list string) :
  existsb is_suspicious (List.map analyze_url urls) = true <->
  40 <= max_default (List.map suspicion_score (List.map analyze_url urls)) 0.
Proof.
  rewrite existsb_exists. split.
  - intros (ua & Hin & Hs). apply in_map_iff in Hin as (u & <- & Hu).
    destruct (analyze_url_fields u) as (Hsc & Hsu & _). rewrite Hsu in Hs.
    apply Z.leb_le in Hs. rewrite <- Hsc in Hs.
    destruct (max_default_spec (List.map suspicion_score (List.map analyze_url urls)))
      as [[E _] | [_ Hub]].
    + destruct urls; [destruct Hu | discriminate E].
    + eapply Z.le_trans; [exact Hs |]. apply Hub.
      apply in_map, in_map, Hu.
  - intros Hmax.
    destruct (max_default_spec (List.map suspicion_score (List.map analyze_url urls)))
      as [[_ E] | [Hin _]]; [lia |].
    apply in_map_iff in Hin as (ua & E & Hin). exists ua. split; [exact Hin |].
    apply in_map_iff in Hin as (u & <- & _).
    destruct (analyze_url_fields u) as (Hsc & -> & _). rewrite <- Hsc.
    apply Z.leb_le. lia.
Qed.

(** X11. In a result of [predict], [has_suspicious_urls] holds exactly when
    [max_url_suspicion_score] is at least 40. *)
Theorem predict_suspicious_iff_max `{Sklearn} `{SetOrder}
    (self : detector) (text : string) (r : DetectionResult) :
  predict self text = inr r ->
  (has_suspicious_urls r = true <-> 40 <= max_url_suspicion_score r).
Proof.
  intros Hp. apply predict_inr in Hp as [_ [pr ->]].
  destruct (fuse_fields text pr) as (_ & -> & -> & _).
  apply existsb_suspicious_max.
Qed.

Lemma predict_suspicious_iff_max_witness :
  stub_predict 0.4 suspicious_message = inr suspicious_result /\
  (has_suspicious_urls suspicious_result = true <->
   40 <= max_url_suspicion_score suspicious_result).
Proof.
  split; [vm_compute; reflexivity |].
  apply (@predict_suspicious_iff_max stub_model canonical_order
           (stub_detector 0.4) suspicious_message suspicious_result).
  vm_compute; reflexivity.
Defined.

(** X12. In a result of [predict] the verdict label agrees with [is_scam]:
    it is "SCAM" when [is_scam] holds and "SAFE" otherwise, and the text and
    the URL count are those of the message. *)
Theorem predict_verdict_label `{Sklearn} `{SetOrder}
    (self : detector) (text0 : string) (r : DetectionResult) :
  predict self text0 = inr r ->
  verdict r = (if is_scam r then "SCAM" else "SAFE") /\
  text r = text0 /\
  urls_found r = Z.of_nat (length (url_analyses r)) /\
  List.map url (url_analyses r) = extract_urls text0 /\
  NoDup (List.map url (url_analyses r)).
Proof.
  intros Hp. apply predict_inr in Hp as [_ [pr ->]].
  destruct (fuse_fields text0 pr) as (-> & _ & _ & _ & -> & _ & _).
  destruct (fuse_more_fields text0 pr) as (-> & -> & -> & _).
  assert (Hurls : List.map url (List.map analyze_url (extract_urls text0)) =
                  extract_urls text0).
  { rewrite List.map_map. induction (extract_urls text0) as [| u l IH]; [reflexivity |].
    cbn [List.map]. rewrite IH. destruct (analyze_url_fields u) as (_ & _ & _ & ->).
    reflexivity. }
  repeat split.
  - destruct (override_cases
                (existsb is_suspicious (List.map analyze_url (extract_urls text0)))
                (combined_score (snd pr)
                   (max_default
                      (List.map suspicion_score
                         (List.map analyze_url (extract_urls text0))) 0)))
      as [(_ & _ & ->) | [(_ & _ & ->) | (_ & ->)]]; reflexivity.
  - rewrite length_map. reflexivity.
  - exact Hurls.
  - rewrite Hurls. apply extract_urls_NoDup.
Qed.

Lemma predict_verdict_label_witness :
  stub_predict 0.4 suspicious_message = inr suspicious_result /\
  verdict suspicious_result = (if is_scam suspicious_result then "SCAM" else "SAFE").
Proof.
  split; [vm_compute; reflexivity |].
  apply (@predict_verdict_label stub_model canonical_order
           (stub_detector 0.4) suspicious_message suspicious_result).
  vm_compute; reflexivity.
Defined.

End FusionMore.


(** ** Messages without URLs *)

Section TextOnly.
Import ScamDetector.

(** X13. For a message with no dot and no [://] in it, [predict] finds no
    URL, so the text alone decides: the confidence is [p_scam * 0.6], the
    verdict is scam exactly when that is at least 0.5, and the reasons do not
    mention URLs. *)
Theorem predict_text_only `{Sklearn} `{SetOrder}
    (self : detector) (message : string) (r : DetectionResult) :
  predict self message = inr r ->
  Str.contains "." message = false ->
  Str.contains "://" message = false ->
  urls_found r = 0 /\ url_analyses r = [] /\
  has_suspicious_urls r = false /\ max_url_suspicion_score r = 0 /\
  (confidence r == text_scam_probability r * 0.6)%Q /\
  (is_scam r = true <-> (0.5 <= text_scam_probability r * 0.6)%Q) /\
  ~ In urls_reason (result_reasons r).
Proof.
  intros Hp Hdot Hsch. apply predict_inr in Hp as [_ [pr ->]].
  destruct (fuse_fields message pr) as (-> & -> & -> & -> & -> & -> & ->).
  destruct (fuse_more_fields message pr) as (-> & _).
  assert (E : extract_urls message = []).
  { unfold extract_urls. rewrite (url_matches_none message Hdot Hsch).
    apply set_to_list_empty. }
  rewrite E. cbn [List.map length existsb max_default Z.of_nat].
  assert (Hc : (combined_score (snd pr) 0 == snd pr * 0.6)%Q)
    by (unfold combined_score; cbn [inject_Z]; field).
  repeat split; try reflexivity.
  - destruct (override_cases false (combined_score (snd pr) 0))
      as [(Hf & _) | [(_ & _ & ->) | (_ & ->)]]; [discriminate Hf | exact Hc | exact Hc].
  - destruct (override_cases false (combined_score (snd pr) 0))
      as [(Hf & _) | [(_ & Hlt & ->) | (Hge & ->)]]; cbn [fst Z.eqb negb];
      [discriminate Hf | discriminate | intros _; rewrite <- Hc; exact Hge].
  - destruct (override_cases false (combined_score (snd pr) 0))
      as [(Hf & _) | [(_ & Hlt & ->) | (Hge & ->)]]; cbn [fst Z.eqb negb];
      [discriminate Hf | | reflexivity].
    intros Hge. rewrite <- Hc in Hge. lra.
  - rewrite build_reasons_In. intros [[_ E'] | [[E' _] | [_ E']]];
      [| discriminate E' | discriminate E'].
    symmetry in E'. apply text_reason_not_urls in E'. exact E'.
Qed.

Lemma predict_text_only_witness :
  stub_predict 0.7 calm_message = inr calm_result /\
  (confidence calm_result == text_scam_probability calm_result * 0.6)%Q.
Proof.
  split; [vm_compute; reflexivity |].
  apply (@predict_text_only stub_model canonical_order
           (stub_detector 0.7) calm_message calm_result); vm_compute; reflexivity.
Defined.

End TextOnly.

(** ** More on saving and loading *)

Section Persistence.
Import ScamDetector.

(** X14. What [save_model] writes, [load_model] reads back: after a save,
    loading into any detector with the same model directory succeeds and
    gives the saved vectorizer and classifier, marked as trained. *)
Theorem save_then_load `{Sklearn} (self other : detector) (fs : files) :
  model_dir other = model_dir self ->
  exists fs',
    save_model self fs = inr fs' /\
    load_model other fs' =
      inr {| model_dir := model_dir self;
             vectorizer := vectorizer self;
             classifier := classifier self;
             is_trained := true |}.
Proof.
  intros Hdir. eexists. split; [reflexivity |].
  unfold load_model. rewrite Hdir. cbn [vectorizers classifiers].
  rewrite !lookup_insert_eq. reflexivity.
Qed.

Lemma save_then_load_witness :
  exists fs',
    save_model (stub_detector 0.4) no_files = inr fs' /\
    load_model (@init stub_model models_dir) fs' = inr (stub_detector 0.4).
Proof.
  apply (@save_then_load stub_model (stub_detector 0.4) (@init stub_model models_dir)
           no_files).
  reflexivity.
Defined.

(** [load_model], by the files that are present. *)
Lemma load_model_cases `{Sklearn} (self : detector) (fs : files) :
  match vectorizers fs !! path_join (model_dir self) "vectorizer.pkl",
        classifiers fs !! path_join (model_dir self) "classifier.pkl" with
  | Some v, Some c =>
      load_model self fs =
        inr {| model_dir := model_dir self; vectorizer := v; classifier := c;
               is_trained := true |}
  | _, _ =>
      load_model self fs =
        inl (FileNotFoundError ("Model files not found in " +:+ model_dir self))
  end.
Proof.
  unfold load_model.
  destruct (vectorizers fs !! path_join (model_dir self) "vectorizer.pkl") as [v |],
           (classifiers fs !! path_join (model_dir self) "classifier.pkl") as [c |];
    reflexivity.
Qed.

End Persistence.


(** ** Training *)

Section TrainingFacts.
Import ScamDetector Training.

(** What [train] leaves behind, by how it ended: with metrics, the detector
    is trained and, when asked to, saved; with an exception, which is one of
    scikit-learn's, the trained flag and the files are as before. *)
Lemma train_outcomes `{SklearnTraining} (self : detector) (fs : files)
    texts labels test_size save :
  let '(res, self', fs') := train self fs texts labels test_size save in
  model_dir self' = model_dir self /\
  match res with
  | inr _ =>
      is_trained self' = true /\
      (if save then save_model self' fs = inr fs' else fs' = fs)
  | inl e =>
      is_trained self' = is_trained self /\ fs' = fs /\
      exists msg, e = SklearnError msg
  end.
Proof.
  unfold train.
  destruct (train_test_split _ labels test_size) as [msg | [[[X_train X_test] y_train] y_test]];
    cbn [attempt]; [cbn; repeat split; eauto |].
  destruct (vec_fit_transform (vectorizer self) X_train) as [v [msg | X_train_vec]];
    cbn [attempt]; [cbn; repeat split; eauto |].
  destruct (vec_transform_batch _ X_test) as [msg | X_test_vec];
    cbn [attempt]; [cbn; repeat split; eauto |].
  destruct (clf_fit _ X_train_vec y_train) as [c [msg | []]];
    cbn [attempt]; [cbn; repeat split; eauto |].
  destruct (clf_predict_batch _ X_test_vec) as [msg | y_pred];
    cbn [attempt]; [cbn; repeat split; eauto |].
  destruct (accuracy_score y_test y_pred) as [msg | acc];
    cbn [attempt]; [cbn; repeat split; eauto |].
  destruct (precision_score y_test y_pred) as [msg | prec];
    cbn [attempt]; [cbn; repeat split; eauto |].
  destruct (recall_score y_test y_pred) as [msg | rec];
    cbn [attempt]; [cbn; repeat split; eauto |].
  destruct (f1_score y_test y_pred) as [msg | f];
    cbn [attempt]; [cbn; repeat split; eauto |].
  destruct save; cbn; auto.
Qed.

(** X15. When [train] returns its metrics, the detector is trained, so
    [predict] no longer raises a [ValueError]; with [save] on, the files
    load back, into any detector with the same model directory, as the
    detector that was trained; with [save] off, the files are as before. *)
Theorem train_success `{SklearnTraining} `{SetOrder} (self : detector) (fs : files)
    texts labels test_size save metrics self' fs' :
  train self fs texts labels test_size save = (inr metrics, self', fs') ->
  is_trained self' = true /\
  model_dir self' = model_dir self /\
  (forall message msg, predict self' message <> inl (ValueError msg)) /\
  (if save
   then forall other, model_dir other = model_dir self ->
                      load_model other fs' = inr self'
   else fs' = fs).
Proof.
  intros E. pose proof (train_outcomes self fs texts labels test_size save) as Ho.
  rewrite E in Ho. destruct Ho as (Hdir & Htr & Hsave).
  split; [exact Htr |]. split; [exact Hdir |]. split.
  - intros message msg. unfold predict. rewrite Htr. cbn [negb].
    destruct (vec_transform _ _) as [? | X]; cbn; [discriminate |].
    destruct (clf_predict _ _) as [? | y]; cbn; [discriminate |].
    destruct (clf_predict_proba _ _) as [? | pr]; cbn; discriminate.
  - destruct save; [| exact Hsave].
    intros other Hother. unfold save_model in Hsave. injection Hsave as <-.
    unfold load_model. rewrite Hother, <- Hdir. cbn [vectorizers classifiers].
    rewrite !lookup_insert_eq. destruct self' as [d v c t]. cbn in *. subst t.
    reflexivity.
Qed.

Lemma train_success_witness :
  exists metrics self' fs',
    stub_train sample_texts sample_labels true = (inr metrics, self', fs') /\
    is_trained self' = true /\
    load_model (@init stub_model models_dir) fs' = inr self'.
Proof.
  eexists. eexists. eexists. split; [vm_compute; reflexivity |].
  pose proof (@train_success stub_model stub_training canonical_order
                (@init stub_model models_dir) no_files sample_texts sample_labels
                0.2 true _ _ _ eq_refl) as (Htr & _ & _ & Hload).
  split; [exact Htr |]. apply Hload. reflexivity.
Defined.



End TrainingFacts.


(** ** The command line *)

Section CliFacts.
Import ScamDetector PredictCli.

Lemma predict_trained_no_value_error `{Sklearn} `{SetOrder} self message msg :
  is_trained self = true -> predict self message <> inl (ValueError msg).
Proof.
  intros Htr. unfold predict. rewrite Htr. cbn [negb].
  destruct (vec_transform _ _) as [? | X]; cbn; [discriminate |].
  destruct (clf_predict _ _) as [? | y]; cbn; [discriminate |].
  destruct (clf_predict_proba _ _) as [? | pr]; cbn; discriminate.
Qed.


End CliFacts.


(** ** The HTTP interface *)

Section ApiFacts.
Import ScamDetector Api.

Lemma blank_truthy s : blank s = false -> truthy (JString s) = true.
Proof.
  unfold blank. cbn [truthy]. destruct s; [vm_compute; discriminate | reflexivity].
Qed.

Lemma object_truthy (fields : gmap string json) key v :
  fields !! key = Some v -> truthy (JObject fields) = true.
Proof.
  intros Hk. cbn [truthy]. destruct (size fields) eqn:E; [| reflexivity].
  apply map_size_empty_iff in E. subst fields. rewrite lookup_empty in Hk.
  discriminate Hk.
Qed.

(** The checks pass exactly for an object whose field is a string that is
    not blank. *)
Lemma required_field_passes request key missing empty s :
  required_field request key missing empty = inr (inr s) <->
  exists fields,
    request = inr (JObject fields) /\ fields !! key = Some (JString s) /\
    blank s = false.
Proof.
  unfold required_field, blank. split.
  - destruct request as [e | data]; cbn [pbind]; [discriminate |].
    destruct (truthy data) eqn:Ht; cbn [negb]; [| discriminate].
    destruct data as [| b | n | t | items | fields]; cbn [py_in pbind];
      try discriminate.
    + destruct (Str.contains key t); cbn [negb py_getitem pbind]; discriminate.
    + destruct (existsb _ items); cbn [negb py_getitem pbind]; discriminate.
    + destruct (fields !! key) as [v |] eqn:Ek.
      * rewrite bool_decide_eq_true_2 by eauto. cbn [negb py_getitem pbind].
        rewrite Ek. cbn [pbind].
        destruct (truthy v); cbn [negb]; [| discriminate].
        destruct v as [| b | n | t | items | fs]; cbn [py_strip pbind];
          try discriminate.
        destruct (String.eqb (Str.strip t) "") eqn:Eb; [discriminate |].
        intros E. injection E as <-. exists fields. auto.
      * rewrite bool_decide_eq_false_2 by (intros [? ?]; discriminate).
        cbn [negb]. discriminate.
  - intros (fields & -> & Hk & Hb). cbn [pbind].
    rewrite (object_truthy fields key _ Hk). cbn [negb py_in pbind].
    rewrite bool_decide_eq_true_2 by eauto. cbn [negb py_getitem pbind].
    rewrite Hk. cbn [pbind]. rewrite (blank_truthy s Hb). cbn [negb py_strip pbind].
    rewrite Hb. reflexivity.
Qed.

(** When the checks answer themselves, it is with status 400. *)
Lemma required_field_rejects request key missing empty resp :
  required_field request key missing empty = inr (inl resp) ->
  resp = (ErrorMessage missing, 400) \/ resp = (ErrorMessage empty, 400).
Proof.
  unfold required_field.
  destruct request as [e | data]; cbn [pbind]; [discriminate |].
  destruct (truthy data); cbn [negb]; [| intros E; injection E as <-; auto].
  destruct (py_in key data) as [e | present]; cbn [pbind]; [discriminate |].
  destruct present; cbn [negb]; [| intros E; injection E as <-; auto].
  destruct (py_getitem data key) as [e | message]; cbn [pbind]; [discriminate |].
  destruct (truthy message); cbn [negb]; [| intros E; injection E as <-; auto].
  destruct (py_strip message) as [e | stripped]; cbn [pbind]; [discriminate |].
  destruct (String.eqb stripped ""); [intros E; injection E as <-; auto |].
  destruct message; discriminate.
Qed.






Lemma non_blank_string s :
  non_blank (JString s) = inr (if blank s then None else Some s).
Proof.
  unfold non_blank, blank. cbn [truthy]. destruct s; [reflexivity |]. reflexivity.
Qed.

Lemma batch_loop_strings `{Sklearn} `{SetOrder} (detector0 : detector) msgs :
  forall acc results,
    Forall2 (fun m r => predict detector0 m = inr r)
            (List.filter (fun m => negb (blank m)) msgs) results ->
    batch_loop detector0 (List.map JString msgs) acc = inr (acc ++ results).
Proof.
  induction msgs as [| m msgs IH]; intros acc results; cbn [List.filter List.map batch_loop].
  - intros Hr. apply Forall2_nil_inv_l in Hr. subst results.
    rewrite app_nil_r. reflexivity.
  - rewrite non_blank_string. destruct (blank m); cbn [negb pbind].
    + apply IH.
    + intros Hr. apply Forall2_cons_inv_l in Hr as (r & rest & Hp & Hrest & ->).
      rewrite Hp. cbn [of_detector pbind]. rewrite (IH _ _ Hrest).
      rewrite <- app_assoc. reflexivity.
Qed.

Lemma batch_detect_array `{Sklearn} `{SetOrder} (detector0 : detector)
    (fields : gmap string json) items :
  fields !! "messages" = Some (JArray items) ->
  batch_detect detector0 (inr (JObject fields)) =
    catch (pbind (batch_loop detector0 items [])
                 (fun results => inr (Batch results (Z.of_nat (length results)), 200))).
Proof.
  intros Hk. unfold batch_detect. cbn [pbind].
  rewrite (object_truthy fields "messages" _ Hk). cbn [negb py_in pbind].
  rewrite bool_decide_eq_true_2 by eauto. cbn [negb py_getitem pbind].
  rewrite Hk. reflexivity.
Qed.



Lemma batch_loop_untrained `{Sklearn} `{SetOrder} (detector0 : detector) msgs :
  is_trained detector0 = false ->
  forall acc,
    batch_loop detector0 (List.map JString msgs) acc =
      if List.forallb blank msgs then inr acc
      else inl (Raised (ValueError not_trained_message)).
Proof.
  intros Htr. induction msgs as [| m msgs IH]; intros acc;
    cbn [List.map batch_loop List.forallb]; [reflexivity |].
  rewrite non_blank_string. destruct (blank m); cbn [andb pbind]; [apply IH |].
  unfold predict. rewrite Htr. reflexivity.
Qed.




End ApiFacts.
